(** * append_manifests: insert the lines of a content file into a YAML file

    A shallow embedding of [.github/append_manifests.py].  The script reads
    a YAML document, reads a text file with [readlines], stores the lines
    under a key given on the command line and writes the document back.

    The script is a sequence of effects on the file system and on the
    standard streams, any of which may raise.  It is modelled as a state and
    exception monad over a [world] holding the file system, the two output
    streams and a log of the file operations performed.  PyYAML is not part
    of the repository: its loader and dumper are the two fields of the class
    [YamlLib], and every theorem holds for any instance.

    The script is read as Python 3 on a POSIX system: files opened in text
    mode are decoded, with universal newlines on reading and no newline
    translation on writing.  File contents are kept as decoded text. *)

From Stdlib Require Import ZArith Ascii String.
From Stdlib Require DecimalString DecimalNat.
From stdpp Require Import base option list strings gmap.

Set Warnings "-register-all".

(** ** Text: newline translation and [readlines] *)

Module Text.

Definition LF : ascii := "010"%char.
Definition CR : ascii := "013"%char.

Definition is_lf (c : ascii) : bool := Ascii.eqb c LF.
Definition is_cr (c : ascii) : bool := Ascii.eqb c CR.

(** [open(path, "r")] reads in text mode with universal newlines: each of
    "\r\n" and "\r" reaches the program as "\n". *)
Fixpoint universal_newlines (s : string) : string :=
  match s with
  | EmptyString => EmptyString
  | String c rest =>
      if is_cr c then
        match rest with
        | String c' rest' =>
            if is_lf c' then String LF (universal_newlines rest')
            else String LF (universal_newlines rest)
        | EmptyString => String LF EmptyString
        end
      else String c (universal_newlines rest)
  end.

(** [f.readlines()]: the text cut after every "\n"; the terminator stays
    on its line, and a last line without terminator is kept as it is. *)
Fixpoint readlines (s : string) : list string :=
  match s with
  | EmptyString => []
  | String c rest =>
      if is_lf c then String c EmptyString :: readlines rest
      else match readlines rest with
           | [] => [String c EmptyString]
           | l :: ls => String c l :: ls
           end
  end.

(** A string holds no line terminator. *)
Fixpoint no_newline (s : string) : bool :=
  match s with
  | EmptyString => true
  | String c rest => negb (is_lf c) && no_newline rest
  end.

(** The last character of a string is "\n". *)
Fixpoint ends_with_newline (s : string) : bool :=
  match s with
  | EmptyString => false
  | String c EmptyString => is_lf c
  | String _ rest => ends_with_newline rest
  end.

(** A complete line: a body without terminator followed by "\n". *)
Definition terminated (body : string) : string :=
  body +:+ String LF EmptyString.

Definition concat_lines (ls : list string) : string :=
  foldr String.append EmptyString ls.

End Text.

(** ** Python values produced by the safe loader *)

Module Py.

(** The hashable scalars a safe load yields; they are the only possible
    dictionary keys.  Floats, byte strings and timestamps are left out of
    the model. *)
Inductive scalar : Type :=
| SNone
| SBool (b : bool)
| SInt (n : Z)
| SStr (s : string).

(** A document: a scalar, a list, or a dict.  A dict keeps its entries in
    insertion order, as Python's does. *)
Inductive value : Type :=
| PyScalar (x : scalar)
| PyList (xs : list value)
| PyDict (d : list (scalar * value)).

Definition PyStr (s : string) : value := PyScalar (SStr s).
Definition PyNone : value := PyScalar SNone.

Definition str_list (ls : list string) : value := PyList (map PyStr ls).

(** Python compares [bool] with [int] by number ([True == 1]) and hashes
    them alike, so both denote the same key. *)
Definition key_norm (x : scalar) : scalar :=
  match x with
  | SBool b => SInt (Z.b2z b)
  | _ => x
  end.

Definition scalar_eqb (x y : scalar) : bool :=
  match key_norm x, key_norm y with
  | SNone, SNone => true
  | SInt m, SInt n => Z.eqb m n
  | SStr s, SStr t => String.eqb s t
  | _, _ => false
  end.

Definition dict : Type := list (scalar * value).

(** [d[k]], [None] standing for [KeyError]. *)
Fixpoint dict_get (d : dict) (k : scalar) : option value :=
  match d with
  | [] => None
  | (k', v) :: d' => if scalar_eqb k' k then Some v else dict_get d' k
  end.

(** [d[k] = v]: an existing entry keeps its place and its key object and
    takes the new value; a new entry goes to the end. *)
Fixpoint dict_set (d : dict) (k : scalar) (v : value) : dict :=
  match d with
  | [] => [(k, v)]
  | (k', v') :: d' =>
      if scalar_eqb k' k then (k', v) :: d' else (k', v') :: dict_set d' k v
  end.

(** Python's [==] on documents: lists agree position by position, dicts
    have the same number of entries and every entry of the left one is
    found in the right one with an equal value. *)
Fixpoint eqb (a b : value) {struct a} : bool :=
  match a, b with
  | PyScalar x, PyScalar y => scalar_eqb x y
  | PyList xs, PyList ys =>
      (fix go (xs ys : list value) {struct xs} : bool :=
         match xs, ys with
         | [], [] => true
         | x :: xs', y :: ys' => eqb x y && go xs' ys'
         | _, _ => false
         end) xs ys
  | PyDict d, PyDict e =>
      Nat.eqb (length d) (length e) &&
      (fix all (d : list (scalar * value)) : bool :=
         match d with
         | [] => true
         | (k, v) :: d' =>
             match dict_get e k with
             | Some w => eqb v w
             | None => false
             end && all d'
         end) d
  | _, _ => false
  end.

(** The two loops of [eqb], by name. *)
Definition list_eqb : list value → list value → bool :=
  fix go (xs ys : list value) {struct xs} : bool :=
    match xs, ys with
    | [], [] => true
    | x :: xs', y :: ys' => eqb x y && go xs' ys'
    | _, _ => false
    end.

Definition entries_in (e : dict) : dict → bool :=
  fix all (d : list (scalar * value)) : bool :=
    match d with
    | [] => true
    | (k, v) :: d' =>
        match dict_get e k with
        | Some w => eqb v w
        | None => false
        end && all d'
    end.

(** The name Python gives the type of a value in its error messages. *)
Definition type_name (v : value) : string :=
  match v with
  | PyScalar SNone => "NoneType"
  | PyScalar (SBool _) => "bool"
  | PyScalar (SInt _) => "int"
  | PyScalar (SStr _) => "str"
  | PyList _ => "list"
  | PyDict _ => "dict"
  end.

Definition is_dict (v : value) : bool :=
  match v with PyDict _ => true | _ => false end.

End Py.

(** ** The process environment: files, streams, exceptions *)

Module Os.

(** A regular file: its contents and whether this process may read and
    write it.  A path is the identity of a file: two paths name the same
    file only when they are the same string. *)
Record file : Type := File {
  f_data : string;
  f_readable : bool;
  f_writable : bool
}.

Inductive mode : Type := R | W.

(** The file operations a run performs, oldest first. *)
Inductive event : Type :=
| EOpen (path : string) (m : mode)
| ERead (path : string)
| EWrite (path : string) (data : string)
| EClose (path : string).

Record world : Type := World {
  w_fs : gmap string file;
  w_stdout : string;
  w_stderr : string;
  w_trace : list event
}.

(** The exceptions that can reach the top of the script. *)
Inductive exn : Type :=
| SystemExit (code : Z)
| IndexError
| FileNotFoundError (path : string)
| PermissionError (path : string)
| UnsupportedOperation (what : string)
| YAMLError (msg : string)
| TypeError (msg : string).

Inductive outcome (A : Type) : Type :=
| Returned (a : A)
| Raised (e : exn).
Arguments Returned {A} a.
Arguments Raised {A} e.

(** A computation runs in a world, returns or raises, and leaves a
    world. *)
Definition IO (A : Type) : Type := world → outcome A * world.

Definition ret {A} (a : A) : IO A := λ w, (Returned a, w).

Definition raise {A} (e : exn) : IO A := λ w, (Raised e, w).

Definition bind {A B} (m : IO A) (k : A → IO B) : IO B :=
  λ w, match m w with
       | (Returned a, w') => k a w'
       | (Raised e, w') => (Raised e, w')
       end.

(** [try: m finally: h]: the handler runs on both exits; an exception
    of the body is raised again after it. *)
Definition finally {A} (m : IO A) (h : IO unit) : IO A :=
  λ w, match m w with
       | (Returned a, w') =>
           match h w' with
           | (Returned _, w'') => (Returned a, w'')
           | (Raised e, w'') => (Raised e, w'')
           end
       | (Raised e, w') =>
           match h w' with
           | (Returned _, w'') => (Raised e, w'')
           | (Raised e', w'') => (Raised e', w'')
           end
       end.

Definition log (ev : event) : IO unit :=
  λ w, (Returned (),
        World (w_fs w) (w_stdout w) (w_stderr w) (w_trace w ++ [ev])).

Definition get_fs : IO (gmap string file) := λ w, (Returned (w_fs w), w).

Definition put_fs (fs : gmap string file) : IO unit :=
  λ w, (Returned (), World fs (w_stdout w) (w_stderr w) (w_trace w)).

End Os.

Declare Scope io_scope.
Delimit Scope io_scope with io.
Notation "x <- m ;; k" := (Os.bind m (λ x, k))
  (at level 100, m at next level, right associativity) : io_scope.
Notation "m ;;; k" := (Os.bind m (λ _, k))
  (at level 100, right associativity) : io_scope.

(** ** The built-ins the script calls *)

Module Builtins.
Import Os.
Local Open Scope io_scope.

(** An open text file.  A file opened for reading carries its decoded
    contents. *)
Record handle : Type := Handle {
  h_name : string;
  h_mode : mode;
  h_text : string
}.

(** [print(s)]: the text and a newline go to standard output. *)
Definition print (s : string) : IO unit :=
  λ w, (Returned (),
        World (w_fs w) (w_stdout w +:+ s +:+ String Text.LF EmptyString)
              (w_stderr w) (w_trace w)).

(** [exit(code)] raises [SystemExit]. *)
Definition exit {A} (code : Z) : IO A := raise (SystemExit code).

(** [sys.argv[i]] *)
Definition argv_get (argv : list string) (i : nat) : IO string :=
  match argv !! i with
  | Some a => ret a
  | None => raise IndexError
  end.

(** [open(path, "r")] fails on a missing or unreadable file.
    [open(path, "w")] fails on a file that may not be written; otherwise
    it empties the file at once, creating it when missing. *)
Definition open (path : string) (m : mode) : IO handle :=
  fs <- get_fs ;;
  match m with
  | R =>
      match fs !! path with
      | None => raise (FileNotFoundError path)
      | Some f =>
          if f_readable f then
            log (EOpen path R) ;;;
            ret (Handle path R (Text.universal_newlines (f_data f)))
          else raise (PermissionError path)
      end
  | W =>
      match fs !! path with
      | None =>
          put_fs (<[path := File EmptyString true true]> fs) ;;;
          log (EOpen path W) ;;;
          ret (Handle path W EmptyString)
      | Some f =>
          if f_writable f then
            put_fs (<[path := File EmptyString (f_readable f) true]> fs) ;;;
            log (EOpen path W) ;;;
            ret (Handle path W EmptyString)
          else raise (PermissionError path)
      end
  end.

Definition close (h : handle) : IO unit := log (EClose (h_name h)).

(** [with open(path, mode) as h: body]: the file is closed however the
    body ends. *)
Definition with_open {A} (path : string) (m : mode) (body : handle → IO A)
  : IO A :=
  h <- open path m ;;
  finally (body h) (close h).

(** [h.read()] *)
Definition read (h : handle) : IO string :=
  match h_mode h with
  | R => log (ERead (h_name h)) ;;; ret (h_text h)
  | W => raise (UnsupportedOperation "not readable")
  end.

(** [h.readlines()] *)
Definition readlines (h : handle) : IO (list string) :=
  match h_mode h with
  | R => log (ERead (h_name h)) ;;; ret (Text.readlines (h_text h))
  | W => raise (UnsupportedOperation "not readable")
  end.

Definition append_data (data : string) (f : file) : file :=
  File (f_data f +:+ data) (f_readable f) (f_writable f).

(** [h.write(data)]: the text is added at the end of the file. *)
Definition write (h : handle) (data : string) : IO unit :=
  match h_mode h with
  | W =>
      fs <- get_fs ;;
      put_fs (alter (append_data data) (h_name h) fs) ;;;
      log (EWrite (h_name h) data)
  | R => raise (UnsupportedOperation "not writable")
  end.

(** What [obj[key] = v] reports, for a [str] key, when [obj] is not a
    dict. *)
Definition item_assignment_error (obj : Py.value) : string :=
  match obj with
  | Py.PyList _ => "list indices must be integers or slices, not str"
  | _ => "'" +:+ Py.type_name obj +:+
         "' object does not support item assignment"
  end.

(** [obj[key] = v] with a [str] key: only a dict takes it. *)
Definition setitem (obj : Py.value) (key : string) (v : Py.value)
  : IO Py.value :=
  match obj with
  | Py.PyDict d => ret (Py.PyDict (Py.dict_set d (Py.SStr key) v))
  | _ => raise (TypeError (item_assignment_error obj))
  end.

End Builtins.

(** ** PyYAML *)

(** The two entry points of the library the script uses, on document
    text: the safe loader, which yields a document or an error message, and
    the dumper. *)
Class YamlLib : Type := {
  yaml_parse : string → string + Py.value;
  yaml_dump : Py.value → string
}.

Module Yaml.
Import Os Builtins.
Local Open Scope io_scope.

(** [yaml.safe_load(stream)] reads the whole stream and parses it. *)
Definition safe_load `{YamlLib} (stream : handle) : IO Py.value :=
  text <- read stream ;;
  match yaml_parse text with
  | inl msg => raise (YAMLError msg)
  | inr doc => ret doc
  end.

(** [yaml.dump(doc)] *)
Definition dump `{YamlLib} (doc : Py.value) : string := yaml_dump doc.

End Yaml.

(** ** The script *)

Module AppendManifests.
Import Os Builtins.
Local Open Scope io_scope.

(** The first message is written in the source as two adjacent literals
    with no space between them. *)
Definition usage_what : string :=
  "This utility gets a yaml file, a content file and a key and inserts the content from the content" +:+
  "file into the yaml file at the given key".

Definition usage_args : string :=
  "Missing arguments: [YAML FILE] [CONTENT FILE] [KEY TO ADD THE CONTENT AT]".

Definition main `{YamlLib} (argv : list string) : IO unit :=
  (if negb (Nat.eqb (length argv) 4) then
     print usage_what ;;;
     print usage_args ;;;
     exit 1
   else ret ()) ;;;
  yaml_path <- argv_get argv 1 ;;
  yaml_file <- with_open yaml_path R (λ stream, Yaml.safe_load stream) ;;
  content_path <- argv_get argv 2 ;;
  yaml_file <- with_open content_path R (λ mtree,
                 lines <- readlines mtree ;;
                 key <- argv_get argv 3 ;;
                 setitem yaml_file key (Py.str_list lines)) ;;
  out_path <- argv_get argv 1 ;;
  with_open out_path W (λ outfile, write outfile (Yaml.dump yaml_file)).

(** The last line of the report the interpreter prints for an uncaught
    exception.  A [YAMLError] carries the library's own report. *)
Definition describe (e : exn) : string :=
  match e with
  | SystemExit _ => EmptyString
  | IndexError => "IndexError: list index out of range"
  | FileNotFoundError p =>
      "FileNotFoundError: [Errno 2] No such file or directory: '" +:+ p +:+ "'"
  | PermissionError p =>
      "PermissionError: [Errno 13] Permission denied: '" +:+ p +:+ "'"
  | UnsupportedOperation what => "io.UnsupportedOperation: " +:+ what
  | YAMLError msg => msg
  | TypeError msg => "TypeError: " +:+ msg
  end.

Definition traceback (e : exn) : string :=
  "Traceback (most recent call last):" +:+ String Text.LF EmptyString +:+
  describe e +:+ String Text.LF EmptyString.

(** [if __name__ == "__main__": main()]: the exit status of the process
    and the world it leaves.  A normal return exits with 0, [SystemExit]
    with its code, any other exception with 1 after its report went to
    standard error. *)
Definition run `{YamlLib} (argv : list string) (w : world) : Z * world :=
  match main argv w with
  | (Returned _, w') => (0%Z, w')
  | (Raised (SystemExit code), w') => ((code mod 256)%Z, w')
  | (Raised e, w') =>
      (1%Z, World (w_fs w') (w_stdout w')
                  (w_stderr w' +:+ traceback e) (w_trace w'))
  end.

Definition exit_status `{YamlLib} (argv : list string) (w : world) : Z :=
  fst (run argv w).

Definition final `{YamlLib} (argv : list string) (w : world) : world :=
  snd (run argv w).

End AppendManifests.

(** ** A small instance of the library

    A loader and a dumper for the JSON-like flow subset of YAML: [null],
    [true], [false], decimal integers, plain words, double-quoted strings,
    [[..]] sequences and [{..}] mappings.  Text outside the subset is
    reported as an error.  It serves to run the script on concrete files. *)

Module MiniYaml.
Import Py.

Definition quote : ascii := "034"%char.
Definition backslash : ascii := "092"%char.

Definition is_space (c : ascii) : bool :=
  Ascii.eqb c " "%char || Text.is_lf c.

Definition is_digit (c : ascii) : bool :=
  let n := nat_of_ascii c in (48 <=? n)%nat && (n <=? 57)%nat.

Definition is_letter (c : ascii) : bool :=
  let n := nat_of_ascii c in
  ((65 <=? n)%nat && (n <=? 90)%nat) || ((97 <=? n)%nat && (n <=? 122)%nat)
  || Ascii.eqb c "_"%char.

Definition is_plain (c : ascii) : bool :=
  is_letter c || is_digit c || Ascii.eqb c "-"%char.

Fixpoint all_chars (p : ascii → bool) (s : string) : bool :=
  match s with
  | EmptyString => true
  | String c rest => p c && all_chars p rest
  end.

(** *** Dumping *)

Fixpoint escape (s : string) : string :=
  match s with
  | EmptyString => EmptyString
  | String c rest =>
      if Ascii.eqb c quote then String backslash (String quote (escape rest))
      else if Ascii.eqb c backslash then
        String backslash (String backslash (escape rest))
      else if Text.is_lf c then String backslash (String "n"%char (escape rest))
      else String c (escape rest)
  end.

Definition dump_scalar (x : scalar) : string :=
  match x with
  | SNone => "null"
  | SBool true => "true"
  | SBool false => "false"
  | SInt n => DecimalString.NilZero.string_of_int (Z.to_int n)
  | SStr s => String quote (escape s) +:+ String quote EmptyString
  end.

Fixpoint join (sep : string) (parts : list string) : string :=
  match parts with
  | [] => EmptyString
  | [p] => p
  | p :: ps => p +:+ sep +:+ join sep ps
  end.

Fixpoint dump_flow (v : value) : string :=
  match v with
  | PyScalar x => dump_scalar x
  | PyList xs =>
      "[" +:+ join ", " ((fix each (xs : list value) : list string :=
                            match xs with
                            | [] => []
                            | x :: xs' => dump_flow x :: each xs'
                            end) xs) +:+ "]"
  | PyDict d =>
      "{" +:+ join ", " ((fix each (d : list (scalar * value)) : list string :=
                            match d with
                            | [] => []
                            | (k, x) :: d' =>
                                (dump_scalar k +:+ ": " +:+ dump_flow x) :: each d'
                            end) d) +:+ "}"
  end.

Definition dump (v : value) : string :=
  dump_flow v +:+ String Text.LF EmptyString.

(** *** Loading *)

Fixpoint skip_ws (s : string) : string :=
  match s with
  | String c rest => if is_space c then skip_ws rest else s
  | EmptyString => s
  end.

(** The longest prefix of plain characters, and the rest. *)
Fixpoint take_plain (s : string) : string * string :=
  match s with
  | String c rest =>
      if is_plain c then
        let '(tok, rest') := take_plain rest in (String c tok, rest')
      else (EmptyString, s)
  | EmptyString => (EmptyString, s)
  end.

(** The body of a double-quoted string up to its closing quote. *)
Fixpoint take_quoted (s : string) : option (string * string) :=
  match s with
  | EmptyString => None
  | String c rest =>
      if Ascii.eqb c quote then Some (EmptyString, rest)
      else if Ascii.eqb c backslash then
        match rest with
        | String e rest' =>
            let put (x : ascii) :=
              match take_quoted rest' with
              | Some (body, tl) => Some (String x body, tl)
              | None => None
              end in
            if Ascii.eqb e "n"%char then put Text.LF
            else if Ascii.eqb e quote then put quote
            else if Ascii.eqb e backslash then put backslash
            else None
        | EmptyString => None
        end
      else
        match take_quoted rest with
        | Some (body, tl) => Some (String c body, tl)
        | None => None
        end
  end.

(** Words the full language reads as booleans or nulls in other
    spellings; the subset does not accept them. *)
Definition reserved : list string :=
  ["Null"; "NULL"; "True"; "TRUE"; "False"; "FALSE"; "yes"; "Yes"; "YES";
   "no"; "No"; "NO"; "on"; "On"; "ON"; "off"; "Off"; "OFF"].

Definition is_decimal (tok : string) : bool :=
  match tok with
  | String "0" EmptyString => true
  | String "0" _ => false
  | String "-" (String "0" _) => false
  | String "-" (String c rest) => all_chars is_digit (String c rest)
  | String c rest => all_chars is_digit (String c rest)
  | EmptyString => false
  end.

Definition resolve (tok : string) : option scalar :=
  if String.eqb tok "null" then Some SNone
  else if String.eqb tok "true" then Some (SBool true)
  else if String.eqb tok "false" then Some (SBool false)
  else if is_decimal tok then
    match DecimalString.NilZero.int_of_string tok with
    | Some n => Some (SInt (Z.of_int n))
    | None => None
    end
  else if all_chars is_letter tok
          && negb (String.eqb tok EmptyString)
          && negb (existsb (String.eqb tok) reserved)
  then Some (SStr tok)
  else None.

(** One node of flow syntax; [fuel] bounds the nesting and the number of
    items read. *)
Fixpoint parse_value (fuel : nat) (s : string) : option (value * string) :=
  match fuel with
  | O => None
  | S fuel' =>
      match skip_ws s with
      | String "[" rest =>
          match skip_ws rest with
          | String "]" rest' => Some (PyList [], rest')
          | _ => parse_items fuel' rest []
          end
      | String "{" rest =>
          match skip_ws rest with
          | String "}" rest' => Some (PyDict [], rest')
          | _ => parse_entries fuel' rest []
          end
      | String c rest =>
          if Ascii.eqb c quote then
            match take_quoted rest with
            | Some (body, rest') => Some (PyStr body, rest')
            | None => None
            end
          else
            let '(tok, rest') := take_plain (String c rest) in
            match resolve tok with
            | Some x => Some (PyScalar x, rest')
            | None => None
            end
      | EmptyString => None
      end
  end
with parse_items (fuel : nat) (s : string) (acc : list value)
  : option (value * string) :=
  match fuel with
  | O => None
  | S fuel' =>
      match parse_value fuel' s with
      | Some (x, rest) =>
          match skip_ws rest with
          | String "," rest' => parse_items fuel' rest' (acc ++ [x])
          | String "]" rest' => Some (PyList (acc ++ [x]), rest')
          | _ => None
          end
      | None => None
      end
  end
with parse_entries (fuel : nat) (s : string) (acc : list (scalar * value))
  : option (value * string) :=
  match fuel with
  | O => None
  | S fuel' =>
      match parse_value fuel' s with
      | Some (PyScalar k, rest) =>
          match skip_ws rest with
          | String ":" (String sp rest') =>
              if is_space sp then
                match parse_value fuel' rest' with
                | Some (x, rest'') =>
                    match skip_ws rest'' with
                    | String "," tl => parse_entries fuel' tl (dict_set acc k x)
                    | String "}" tl => Some (PyDict (dict_set acc k x), tl)
                    | _ => None
                    end
                | None => None
                end
              else None
          | _ => None
          end
      | _ => None
      end
  end.

Definition parse (text : string) : string + value :=
  match skip_ws text with
  | EmptyString => inr PyNone
  | _ =>
      match parse_value (S (String.length text)) text with
      | Some (v, rest) =>
          match skip_ws rest with
          | EmptyString => inr v
          | _ => inl "yaml.parser.ParserError: expected the end of the document"
          end
      | None => inl "yaml.parser.ParserError: could not parse the document"
      end
  end.

#[export] Instance mini_yaml : YamlLib := {|
  yaml_parse := parse;
  yaml_dump := dump
|}.

End MiniYaml.

(** ** Observations on a run *)

Module Observe.
Import Os Builtins Py.

(** The world after further file operations were logged. *)
Definition logged (w : world) (evs : list event) : world :=
  World (w_fs w) (w_stdout w) (w_stderr w) (w_trace w ++ evs).

(** The world with file [f] at [path]. *)
Definition stored (w : world) (path : string) (f : file) : world :=
  World (<[path := f]> (w_fs w)) (w_stdout w) (w_stderr w) (w_trace w).

(** The world after a report reached standard error. *)
Definition reported (w : world) (e : exn) : world :=
  World (w_fs w) (w_stdout w)
        (w_stderr w +:+ AppendManifests.traceback e) (w_trace w).

(** The events of reading a file from [open] to [close], and of
    writing one. *)
Definition reading (path : string) : list event :=
  [EOpen path R; ERead path; EClose path].

Definition writing (path data : string) : list event :=
  [EOpen path W; EWrite path data; EClose path].

(** The text a reader of the file gets. *)
Definition decoded (f : file) : string :=
  Text.universal_newlines (f_data f).

(** The file exists and may be read. *)
Definition readable_file (fs : gmap string file) (path : string) : bool :=
  match fs !! path with
  | Some f => f_readable f
  | None => false
  end.

(** The document a safe load of the file at [path] yields, if the file
    can be read and parses. *)
Definition load_file `{YamlLib} (fs : gmap string file) (path : string)
  : option value :=
  match fs !! path with
  | Some f =>
      if f_readable f then
        match yaml_parse (decoded f) with
        | inr doc => Some doc
        | inl _ => None
        end
      else None
  | None => None
  end.

(** The lines [readlines] yields for the file at [path]. *)
Definition lines_of (fs : gmap string file) (path : string)
  : option (list string) :=
  match fs !! path with
  | Some f => if f_readable f then Some (Text.readlines (decoded f)) else None
  | None => None
  end.

(** The document with [lines] stored at [key]. *)
Definition updated (d : dict) (key : string) (lines : list string) : value :=
  PyDict (dict_set d (SStr key) (str_list lines)).

(** The world a successful run leaves: the manifest holds the dumped
    document, and the three files were read and written in turn. *)
Definition rewritten `{YamlLib} (w : world) (ypath cpath : string)
  (doc : value) : world :=
  logged (stored w ypath (File (yaml_dump doc) true true))
         (reading ypath ++ reading cpath ++ writing ypath (yaml_dump doc)).

(** The library reads back what it dumped for [doc]: loading the dumped
    text yields a document that Python's [==] finds equal to [doc]. *)
Definition round_trips `{YamlLib} (doc : value) : bool :=
  match yaml_parse (Text.universal_newlines (yaml_dump doc)) with
  | inr doc' => eqb doc doc'
  | inl _ => false
  end.

(** The errors of opening an input: the path is missing or may not be
    read. *)
Definition is_input_error (e : exn) : bool :=
  match e with
  | FileNotFoundError _ | PermissionError _ => true
  | _ => false
  end.

(** An event that leaves every file as it is. *)
Definition read_only (ev : event) : bool :=
  match ev with
  | EOpen _ W | EWrite _ _ => false
  | _ => true
  end.

(** The run ended in an input error. *)
Definition fails_with_input_error `{YamlLib} (argv : list string) (w : world)
  : Prop :=
  ∃ e, fst (AppendManifests.main argv w) = Raised e ∧ is_input_error e = true.

End Observe.

(** ** Example runs *)

Module Examples.
Import Os Py.

Definition nl : string := String Text.LF EmptyString.

Definition fresh (fs : gmap string file) : world :=
  World fs EmptyString EmptyString [].

(** [manifest.yaml] holds [{foo: 1}] and [notes.txt] the two lines
    "a\n" and "b\n"; the key is [bar]. *)
Definition argv : list string :=
  ["append_manifests.py"; "manifest.yaml"; "notes.txt"; "bar"].

Definition manifest : file := File ("{foo: 1}" +:+ nl) true true.

Definition notes : file := File ("a" +:+ nl +:+ "b" +:+ nl) true true.

Definition scenario : world :=
  fresh (<["manifest.yaml" := manifest]> (<["notes.txt" := notes]> ∅)).

Definition foo_1 : dict := [(SStr "foo", PyScalar (SInt 1))].

(** The same with [foo] as the key, which the manifest already has. *)
Definition argv_foo : list string :=
  ["append_manifests.py"; "manifest.yaml"; "notes.txt"; "foo"].

(** Too few arguments. *)
Definition argv_short : list string :=
  ["append_manifests.py"; "manifest.yaml"].

(** The last line of the notes has no terminator. *)
Definition notes_open : file := File ("a" +:+ nl +:+ "b") true true.

Definition scenario_open : world :=
  fresh (<["manifest.yaml" := manifest]> (<["notes.txt" := notes_open]> ∅)).

(** The manifest is a sequence, not a mapping. *)
Definition scenario_sequence : world :=
  fresh (<["manifest.yaml" := File ("[1, 2]" +:+ nl) true true]>
           (<["notes.txt" := notes]> ∅)).

(** The notes may not be read. *)
Definition scenario_locked : world :=
  fresh (<["manifest.yaml" := manifest]>
           (<["notes.txt" := File "secret" false true]> ∅)).

(** The manifest is not YAML: a mapping is opened and never closed.
    There are no notes. *)
Definition scenario_broken : world :=
  fresh (<["manifest.yaml" := File "{" true true]> ∅).

(** There is no manifest. *)
Definition scenario_empty : world :=
  fresh (<["notes.txt" := notes]> ∅).

End Examples.

(** ** Further observations *)

Module Checks.
Import Os.

(** The file operations are well bracketed: a file is opened only when none
    is open, read only while open for reading, written only while open for
    writing, closed only while open, and none is left open at the end.
    [cur] is the file open so far, with its mode. *)
Fixpoint bracketed (cur : option (string * mode)) (evs : list event) : bool :=
  match evs with
  | [] => match cur with None => true | Some _ => false end
  | EOpen p m :: evs' =>
      match cur with
      | None => bracketed (Some (p, m)) evs'
      | Some _ => false
      end
  | ERead p :: evs' =>
      match cur with
      | Some (q, R) => String.eqb p q && bracketed cur evs'
      | _ => false
      end
  | EWrite p _ :: evs' =>
      match cur with
      | Some (q, W) => String.eqb p q && bracketed cur evs'
      | _ => false
      end
  | EClose p :: evs' =>
      match cur with
      | Some (q, _) => String.eqb p q && bracketed None evs'
      | None => false
      end
  end.

(** The number of line terminators in a text. *)
Fixpoint count_lf (s : string) : nat :=
  match s with
  | EmptyString => 0
  | String c rest => (if Text.is_lf c then 1 else 0) + count_lf rest
  end.

(** A text holds a carriage return. *)
Fixpoint has_cr (s : string) : bool :=
  match s with
  | EmptyString => false
  | String c rest => Text.is_cr c || has_cr rest
  end.

(** A line as [readlines] yields them: not empty, and with no terminator
    before its last character. *)
Fixpoint single_line (s : string) : bool :=
  match s with
  | EmptyString => false
  | String c EmptyString => true
  | String c rest => negb (Text.is_lf c) && single_line rest
  end.

(** What a file allows, without its contents. *)
Definition permissions (f : file) : bool * bool := (f_readable f, f_writable f).

(** The manifest at [path] is the dump of a mapping with the list [ls] of
    strings at [key]. *)
Definition holds_lines `{YamlLib} (fs : gmap string file) (path key : string)
  (ls : list string) : Prop :=
  ∃ d, fs !! path = Some (File (yaml_dump (Py.PyDict d)) true true) ∧
       Py.dict_get d (Py.SStr key) = Some (Py.str_list ls).

(** What [readlines] adds to the number of terminators: one for a last
    line that has none. *)
Definition open_end (s : string) : nat :=
  match s with
  | EmptyString => 0
  | _ => if Text.ends_with_newline s then 0 else 1
  end.

End Checks.

Module MoreExamples.
Import Os Py.

(** The manifest may be read but not written. *)
Definition scenario_readonly : world :=
  Examples.fresh
    (<["manifest.yaml" := File ("{foo: 1}" +:+ Examples.nl) true false]>
       (<["notes.txt" := Examples.notes]> ∅)).

(** The notes are empty. *)
Definition scenario_blank : world :=
  Examples.fresh
    (<["manifest.yaml" := Examples.manifest]>
       (<["notes.txt" := File EmptyString true true]> ∅)).

(** The notes come from a system that ends lines with "\r\n". *)
Definition notes_crlf : file :=
  File ("a" +:+ String Text.CR Examples.nl +:+ "b" +:+ String Text.CR Examples.nl)
       true true.

Definition scenario_crlf : world :=
  Examples.fresh
    (<["manifest.yaml" := Examples.manifest]> (<["notes.txt" := notes_crlf]> ∅)).

End MoreExamples.

(** ** The build script of the vendored dockerfile package

    [vendor/github.com/asottile/dockerfile/setup.py] checks that the moby
    sources are there, chooses the wheel command and calls [setup].  What
    [setup] does is setuptools' business: the script is followed up to that
    call. *)

Module SetupPy.

(** What the script asks of the interpreter and of the working
    directory. *)
Record interpreter : Type := Interpreter {
  existing : gset string;          (* the paths [os.path.exists] finds *)
  sys_platform : string;           (* [sys.platform] *)
  python_implementation : string;  (* [platform.python_implementation()] *)
  wheel_installed : bool;          (* [import wheel.bdist_wheel] succeeds *)
  version_minor : nat              (* [sys.version_info[1]] *)
}.

(** The attributes of a command object. *)
Definition attributes : Type := gmap string Py.value.

(** A command class, by its [finalize_options]: given the method of the
    base class, what it does to the command. *)
Definition command_class : Type := (attributes → attributes) → attributes → attributes.

Record extension : Type := Extension {
  ext_name : string;
  ext_sources : list string;
  ext_py_limited_api : bool;
  ext_define_macros : list (string * option string)
}.

Record setup_args : Type := SetupArgs {
  ext_modules : list extension;
  cmdclass : list (string * command_class);
  build_golang : list (string * string)
}.

(** How the script ends: by [exit], or in the call of [setup]. *)
Inductive ending : Type :=
| Exited (code : Z)
| SetupCalled (args : setup_args).

(** [str(n)] for a natural number. *)
Definition str (n : nat) : string :=
  DecimalString.NilZero.string_of_uint (Nat.to_uint n).

(** [f'cp3{sys.version_info[1]}'] *)
Definition limited_api_tag (py : interpreter) : string :=
  "cp3" +:+ str (version_minor py).

(** [bdist_wheel.finalize_options]: the tag is set, then the base class
    finalizes. *)
Definition finalize_options (py : interpreter) : command_class :=
  λ super_finalize self,
    super_finalize (<["py_limited_api" := Py.PyStr (limited_api_tag py)]> self).

(** The [cmdclass] the script settles on. *)
Definition choose_cmdclass (py : interpreter) : list (string * command_class) :=
  if negb (String.eqb (sys_platform py) "win32")
     && String.eqb (python_implementation py) "CPython"
  then
    if wheel_installed py then [("bdist_wheel", finalize_options py)]
    else []
  else [].

Definition moby_frontend : string := "vendor/github.com/moby/buildkit/frontend".

Definition line (s : string) : string := s +:+ String Text.LF EmptyString.

(** The script: what it prints and how it ends. *)
Definition script (py : interpreter) : string * ending :=
  if negb (bool_decide (moby_frontend ∈ existing py)) then
    (line "moby checkout is missing!" +:+
     line "Run `git submodule update --init`",
     Exited 1)
  else
    (EmptyString,
     SetupCalled
       (SetupArgs
          [Extension "dockerfile" ["pylib/main.go"] true
             [("Py_LIMITED_API", None)]]
          (choose_cmdclass py)
          [("root", "github.com/asottile/dockerfile")])).


(** CPython 3.12 on Linux with the wheel package, in a full checkout. *)
Definition cpython_linux : interpreter :=
  Interpreter {[moby_frontend]} "linux" "CPython" true 12.

(** The same without the moby sources. *)
Definition bare_checkout : interpreter :=
  Interpreter ∅ "linux" "CPython" true 12.

End SetupPy.

(** * Properties *)

(** ** Keys and dictionaries *)

Module PyFacts.
Import Py.

Lemma key_norm_not_bool x b : key_norm x ≠ SBool b.
Proof. by destruct x. Qed.

Lemma scalar_eqb_norm x y :
  scalar_eqb x y = true ↔ key_norm x = key_norm y.
Proof.
  unfold scalar_eqb.
  destruct (key_norm x) eqn:Hx, (key_norm y) eqn:Hy; split; intros E;
    try discriminate; try reflexivity;
    try (by apply key_norm_not_bool in Hx);
    try (by apply key_norm_not_bool in Hy).
  - apply Z.eqb_eq in E. by subst.
  - injection E as ->. apply Z.eqb_refl.
  - apply String.eqb_eq in E. by subst.
  - injection E as ->. apply String.eqb_refl.
Qed.

Lemma scalar_eqb_refl x : scalar_eqb x x = true.
Proof. by apply scalar_eqb_norm. Qed.

Lemma scalar_eqb_sym x y : scalar_eqb x y = scalar_eqb y x.
Proof.
  destruct (scalar_eqb x y) eqn:E, (scalar_eqb y x) eqn:F; try done.
  - apply scalar_eqb_norm in E. symmetry in E.
    apply scalar_eqb_norm in E. congruence.
  - apply scalar_eqb_norm in F. symmetry in F.
    apply scalar_eqb_norm in F. congruence.
Qed.

(** Keys that compare equal find the same entry. *)
Lemma scalar_eqb_proper x y z :
  scalar_eqb x y = true → scalar_eqb z x = scalar_eqb z y.
Proof.
  intros E. apply scalar_eqb_norm in E.
  destruct (scalar_eqb z x) eqn:F, (scalar_eqb z y) eqn:G; try done.
  - apply scalar_eqb_norm in F. rewrite E in F.
    apply scalar_eqb_norm in F. congruence.
  - apply scalar_eqb_norm in G. rewrite <- E in G.
    apply scalar_eqb_norm in G. congruence.
Qed.

Lemma dict_get_proper d x y :
  scalar_eqb x y = true → dict_get d x = dict_get d y.
Proof.
  intros E. induction d as [| [k v] d IH]; simpl; [done |].
  rewrite (scalar_eqb_proper x y k E). by rewrite IH.
Qed.

(** A string key is equal to string keys with the same text only. *)
Lemma scalar_eqb_str k s :
  scalar_eqb k (SStr s) = true ↔ k = SStr s.
Proof.
  rewrite scalar_eqb_norm. destruct k as [| [] | |]; simpl; split; congruence.
Qed.

Lemma dict_get_set_eq d k v : dict_get (dict_set d k v) k = Some v.
Proof.
  induction d as [| [k' v'] d IH]; simpl.
  - by rewrite scalar_eqb_refl.
  - destruct (scalar_eqb k' k) eqn:E; simpl; by rewrite E.
Qed.

Lemma dict_get_set_ne d k v k' :
  scalar_eqb k' k = false →
  dict_get (dict_set d k v) k' = dict_get d k'.
Proof.
  intros Hne. induction d as [| [k0 v0] d IH]; simpl.
  - rewrite scalar_eqb_sym. by rewrite Hne.
  - destruct (scalar_eqb k0 k) eqn:E; simpl.
    + destruct (scalar_eqb k0 k') eqn:F; [| done].
      rewrite scalar_eqb_sym in F.
      rewrite (scalar_eqb_proper k0 k k') in F; [congruence | done].
    + by rewrite IH.
Qed.

(** Assignment to a missing key adds one entry; to a present key,
    none. *)
Lemma dict_set_length d k v :
  length (dict_set d k v) =
  match dict_get d k with
  | None => S (length d)
  | Some _ => length d
  end.
Proof.
  induction d as [| [k' v'] d IH]; simpl; [done |].
  destruct (scalar_eqb k' k); simpl; [done |].
  rewrite IH. by destruct (dict_get d k).
Qed.

Lemma eqb_list xs ys : eqb (PyList xs) (PyList ys) = list_eqb xs ys.
Proof. reflexivity. Qed.

Lemma eqb_dict d e :
  eqb (PyDict d) (PyDict e) = Nat.eqb (length d) (length e) && entries_in e d.
Proof. reflexivity. Qed.

Lemma eqb_dict_inv d b :
  eqb (PyDict d) b = true → ∃ e, b = PyDict e.
Proof. destruct b; simpl; try discriminate. eauto. Qed.

Lemma eqb_dict_length d e :
  eqb (PyDict d) (PyDict e) = true → length d = length e.
Proof.
  rewrite eqb_dict. intros [E _]%andb_true_iff. by apply Nat.eqb_eq.
Qed.

Lemma entries_in_get e d k v :
  entries_in e d = true → dict_get d k = Some v →
  ∃ w, dict_get e k = Some w ∧ eqb v w = true.
Proof.
  induction d as [| [k0 v0] d IH]; simpl; [done |].
  intros [Hhd Htl]%andb_true_iff.
  destruct (scalar_eqb k0 k) eqn:E.
  - intros [= ->]. destruct (dict_get e k0) as [w |] eqn:G; [| done].
    exists w. split; [| done]. by rewrite <- (dict_get_proper e k0 k E).
  - by apply IH.
Qed.

(** Equal dicts hold equal values at every key of the left one. *)
Lemma eqb_dict_get d e k v :
  eqb (PyDict d) (PyDict e) = true → dict_get d k = Some v →
  ∃ w, dict_get e k = Some w ∧ eqb v w = true.
Proof.
  rewrite eqb_dict. intros [_ H]%andb_true_iff. by apply entries_in_get.
Qed.

(** A [str] is equal to nothing but the same [str], and so is a list of
    them. *)
Lemma eqb_str s v : eqb (PyStr s) v = true → v = PyStr s.
Proof.
  destruct v as [x | |]; simpl; try discriminate.
  intros E. rewrite scalar_eqb_sym in E. apply scalar_eqb_str in E.
  by subst.
Qed.

Lemma eqb_str_list ls v : eqb (str_list ls) v = true → v = str_list ls.
Proof.
  destruct v as [| ys |]; simpl; try discriminate.
  unfold str_list. intros E. f_equal.
  revert ys E. induction ls as [| l ls IH]; intros [| y ys]; simpl;
    try discriminate; [done |].
  intros [Hy Hys]%andb_true_iff.
  apply (eqb_str l) in Hy. subst y. f_equal. by apply IH.
Qed.

End PyFacts.

(** ** The three phases of the script *)

Module Phases.
Import Os Builtins Py AppendManifests Observe.
Local Open Scope io_scope.

Section WithLibrary.
Context `{YamlLib}.

(** Loading: the YAML file is opened, read, parsed and closed. *)
Lemma load_phase path w :
  with_open path R (λ stream, Yaml.safe_load stream) w =
  match w_fs w !! path with
  | None => (Raised (FileNotFoundError path), w)
  | Some f =>
      if f_readable f then
        match yaml_parse (decoded f) with
        | inl msg => (Raised (YAMLError msg), logged w (reading path))
        | inr doc => (Returned doc, logged w (reading path))
        end
      else (Raised (PermissionError path), w)
  end.
Proof.
  unfold with_open, open, bind, get_fs. cbn.
  destruct (w_fs w !! path) as [f |]; [| done].
  destruct (f_readable f); [| done].
  unfold finally, Yaml.safe_load, read, bind, log, close, logged, decoded.
  cbn. destruct (yaml_parse _); cbn; by rewrite <- !app_assoc.
Qed.

(** Inserting: the content file is opened and read, the lines are
    assigned at the key, the file is closed. *)
Lemma insert_phase path key doc w :
  with_open path R (λ mtree,
      lines <- readlines mtree ;;
      key' <- ret key ;;
      setitem doc key' (str_list lines)) w =
  match w_fs w !! path with
  | None => (Raised (FileNotFoundError path), w)
  | Some f =>
      if f_readable f then
        match doc with
        | PyDict d =>
            (Returned (updated d key (Text.readlines (decoded f))),
             logged w (reading path))
        | _ => (Raised (TypeError (item_assignment_error doc)),
                logged w (reading path))
        end
      else (Raised (PermissionError path), w)
  end.
Proof.
  unfold with_open, open, bind, get_fs. cbn.
  destruct (w_fs w !! path) as [f |]; [| done].
  destruct (f_readable f); [| done].
  unfold finally, readlines, bind, log, close, logged, decoded, ret.
  cbn. destruct doc as [[] | |]; cbn; by rewrite <- !app_assoc.
Qed.

(** Storing: the YAML file is opened for writing, which empties it,
    the dumped document is written, the file is closed. *)
Lemma store_phase path doc w :
  with_open path W (λ outfile, write outfile (Yaml.dump doc)) w =
  match w_fs w !! path with
  | None =>
      (Returned (),
       logged (stored w path (File (yaml_dump doc) true true))
              (writing path (yaml_dump doc)))
  | Some f =>
      if f_writable f then
        (Returned (),
         logged (stored w path (File (yaml_dump doc) (f_readable f) true))
                (writing path (yaml_dump doc)))
      else (Raised (PermissionError path), w)
  end.
Proof.
  unfold with_open, open, bind, get_fs. cbn.
  destruct (w_fs w !! path) as [f |].
  - destruct (f_writable f); [| done].
    unfold finally, write, bind, log, close, logged, stored, put_fs,
      get_fs, Yaml.dump. cbn.
    by rewrite <- !app_assoc, alter_insert_eq.
  - unfold finally, write, bind, log, close, logged, stored, put_fs,
      get_fs, Yaml.dump. cbn.
    by rewrite <- !app_assoc, alter_insert_eq.
Qed.

(** With a wrong number of arguments the script prints its two
    messages and exits. *)
Lemma main_usage argv w :
  length argv ≠ 4 →
  main argv w =
    (Raised (SystemExit 1),
     World (w_fs w)
           ((w_stdout w +:+ usage_what +:+ String Text.LF EmptyString)
              +:+ usage_args +:+ String Text.LF EmptyString)
           (w_stderr w) (w_trace w)).
Proof.
  intros Hlen. unfold main.
  destruct (Nat.eqb (length argv) 4) eqn:E; [| done].
  apply Nat.eqb_eq in E. contradiction.
Qed.

(** With three arguments, every way the script can end. *)
Lemma main_cases prog ypath cpath key w :
  main [prog; ypath; cpath; key] w =
  match w_fs w !! ypath with
  | None => (Raised (FileNotFoundError ypath), w)
  | Some fy =>
      if f_readable fy then
        match yaml_parse (decoded fy) with
        | inl msg => (Raised (YAMLError msg), logged w (reading ypath))
        | inr doc =>
            match w_fs w !! cpath with
            | None => (Raised (FileNotFoundError cpath),
                       logged w (reading ypath))
            | Some fc =>
                if f_readable fc then
                  match doc with
                  | PyDict d =>
                      let doc' := updated d key (Text.readlines (decoded fc)) in
                      if f_writable fy then
                        (Returned (),
                         logged (stored w ypath
                                   (File (yaml_dump doc') true true))
                                (reading ypath ++ reading cpath ++
                                 writing ypath (yaml_dump doc')))
                      else (Raised (PermissionError ypath),
                            logged w (reading ypath ++ reading cpath))
                  | _ => (Raised (TypeError (item_assignment_error doc)),
                          logged w (reading ypath ++ reading cpath))
                  end
                else (Raised (PermissionError cpath),
                      logged w (reading ypath))
            end
        end
      else (Raised (PermissionError ypath), w)
  end.
Proof.
  unfold main. cbn [length Nat.eqb negb argv_get lookup list_lookup].
  unfold bind at 1. unfold ret at 1.
  unfold bind at 1. unfold ret at 1.
  unfold bind at 1. rewrite load_phase.
  destruct (w_fs w !! ypath) as [fy |] eqn:Hy; [| done].
  destruct (f_readable fy) eqn:Hr; [| done].
  destruct (yaml_parse (decoded fy)) as [msg | doc]; [done |].
  unfold bind at 1. unfold ret at 1.
  unfold bind at 1. rewrite insert_phase. cbn [logged w_fs].
  destruct (w_fs w !! cpath) as [fc |]; [| done].
  destruct (f_readable fc); [| done].
  destruct doc as [x | xs | d].
  - unfold logged. cbn. by rewrite <- !app_assoc.
  - unfold logged. cbn. by rewrite <- !app_assoc.
  - unfold bind at 1. unfold ret at 1. rewrite store_phase.
    cbn [logged w_fs]. rewrite Hy.
    destruct (f_writable fy).
    + rewrite Hr. unfold logged, stored. cbn. by rewrite <- !app_assoc.
    + unfold logged. cbn. by rewrite <- !app_assoc.
Qed.

End WithLibrary.
End Phases.

(** ** Lines *)

Module TextFacts.
Import Text.

Lemma append_nil (s : string) : EmptyString +:+ s = s.
Proof. reflexivity. Qed.

Lemma append_cons (c : ascii) (a b : string) :
  String c a +:+ b = String c (a +:+ b).
Proof. reflexivity. Qed.

Lemma append_assoc (a b c : string) : (a +:+ b) +:+ c = a +:+ (b +:+ c).
Proof.
  induction a as [| x a IH]; [done |]. by rewrite !append_cons, IH.
Qed.

(** A line without terminator is read as one line. *)
Lemma readlines_unterminated s :
  no_newline s = true → s ≠ EmptyString → readlines s = [s].
Proof.
  induction s as [| c s IH]; [done |]. simpl.
  intros [Hc Hs]%andb_true_iff _. apply negb_true_iff in Hc. rewrite Hc.
  destruct s as [| c' s']; [done |]. by rewrite IH.
Qed.

(** A terminated line is cut off the front of the text. *)
Lemma readlines_terminated body rest :
  no_newline body = true →
  readlines (terminated body +:+ rest) = terminated body :: readlines rest.
Proof.
  unfold terminated. induction body as [| c body IH].
  - done.
  - simpl. intros [Hc Hs]%andb_true_iff. apply negb_true_iff in Hc.
    rewrite !append_cons. simpl. rewrite Hc. by rewrite (IH Hs).
Qed.

(** Complete lines followed by a last line without terminator are read
    back one by one. *)
Lemma readlines_lines bodies last :
  Forall (λ b, no_newline b = true) bodies →
  no_newline last = true → last ≠ EmptyString →
  readlines (concat_lines (map terminated bodies) +:+ last) =
  map terminated bodies ++ [last].
Proof.
  intros Hb Hl Hne. induction Hb as [| b bodies Hb _ IH]; simpl.
  - by apply readlines_unterminated.
  - rewrite append_assoc, readlines_terminated by done. by rewrite IH.
Qed.

Lemma ends_with_newline_terminated body :
  ends_with_newline (terminated body) = true.
Proof.
  unfold terminated. induction body as [| c body IH]; [done |].
  rewrite append_cons. simpl.
  destruct (body +:+ String LF EmptyString) eqn:E; [| done].
  by destruct body.
Qed.

Lemma no_newline_ends s : no_newline s = true → ends_with_newline s = false.
Proof.
  induction s as [| c s IH]; simpl; [done |].
  intros [Hc Hs]%andb_true_iff. apply negb_true_iff in Hc.
  destruct s; [done | by apply IH].
Qed.

(** Nothing of the text is lost or added by the cut. *)
Lemma concat_readlines s : concat_lines (readlines s) = s.
Proof.
  induction s as [| c s IH]; simpl; [done |].
  destruct (is_lf c); simpl; [by rewrite append_cons, append_nil, IH |].
  destruct (readlines s) as [| l ls]; simpl in *;
    rewrite ?append_cons, ?append_nil; by rewrite <- IH.
Qed.

End TextFacts.

(** ** Runs with three arguments *)

Module RunFacts.
Import Os Builtins Py AppendManifests Observe.

Section WithLibrary.
Context `{YamlLib}.

Lemma load_file_Some fs path doc :
  load_file fs path = Some doc ↔
  ∃ f, fs !! path = Some f ∧ f_readable f = true ∧
       yaml_parse (decoded f) = inr doc.
Proof.
  unfold load_file. split.
  - destruct (fs !! path) as [f |]; [| done].
    destruct (f_readable f) eqn:Hr; [| done].
    destruct (yaml_parse (decoded f)) eqn:Hp; [done |].
    intros [= ->]. eauto.
  - intros (f & -> & -> & ->). done.
Qed.

Lemma lines_of_Some fs path lines :
  lines_of fs path = Some lines ↔
  ∃ f, fs !! path = Some f ∧ f_readable f = true ∧
       Text.readlines (decoded f) = lines.
Proof.
  unfold lines_of. split.
  - destruct (fs !! path) as [f |]; [| done].
    destruct (f_readable f) eqn:Hr; [| done].
    intros [= <-]. eauto.
  - intros (f & -> & -> & <-). done.
Qed.

(** A run ends with status 0 exactly when the manifest loads as a
    mapping and may be written and the content file can be read. *)
Lemma run_success prog ypath cpath key w fy d lines :
  w_fs w !! ypath = Some fy → f_writable fy = true →
  load_file (w_fs w) ypath = Some (PyDict d) →
  lines_of (w_fs w) cpath = Some lines →
  run [prog; ypath; cpath; key] w =
    (0%Z, rewritten w ypath cpath (updated d key lines)).
Proof.
  intros Hy Hw (fy' & Hy' & Hr & Hp)%load_file_Some
    (fc & Hc & Hrc & Hl)%lines_of_Some.
  assert (fy' = fy) as -> by congruence.
  unfold run. rewrite Phases.main_cases, Hy, Hr, Hp, Hc, Hrc, Hw, Hl.
  done.
Qed.

(** A run that ends with status 0 went through the three phases. *)
Lemma run_success_inv prog ypath cpath key w :
  exit_status [prog; ypath; cpath; key] w = 0%Z →
  ∃ fy d lines,
    w_fs w !! ypath = Some fy ∧ f_writable fy = true ∧
    load_file (w_fs w) ypath = Some (PyDict d) ∧
    lines_of (w_fs w) cpath = Some lines.
Proof.
  unfold exit_status, run, load_file, lines_of. rewrite Phases.main_cases.
  destruct (w_fs w !! ypath) as [fy |]; [| done].
  destruct (f_readable fy); [| done].
  destruct (yaml_parse (decoded fy)) as [msg | doc]; [done |].
  destruct (w_fs w !! cpath) as [fc |]; [| done].
  destruct (f_readable fc); [| done].
  destruct doc as [x | xs | d]; [done | done |].
  cbv zeta. destruct (f_writable fy) eqn:Hw; [| done].
  intros _. by exists fy, d, (Text.readlines (decoded fc)).
Qed.

(** Every other run ends with status 1 and leaves all files as they
    were, having at most read them. *)
Lemma run_failure prog ypath cpath key w :
  exit_status [prog; ypath; cpath; key] w ≠ 0%Z →
  ∃ e evs,
    main [prog; ypath; cpath; key] w = (Raised e, logged w evs) ∧
    run [prog; ypath; cpath; key] w = (1%Z, reported (logged w evs) e) ∧
    forallb read_only evs = true.
Proof.
  unfold exit_status, run. rewrite Phases.main_cases.
  assert (Hw : logged w [] = w).
  { unfold logged. rewrite app_nil_r. by destruct w. }
  destruct (w_fs w !! ypath) as [fy |].
  2: { intros _. exists (FileNotFoundError ypath), []. by rewrite Hw. }
  destruct (f_readable fy).
  2: { intros _. exists (PermissionError ypath), []. by rewrite Hw. }
  destruct (yaml_parse (decoded fy)) as [msg | doc].
  { intros _. by exists (YAMLError msg), (reading ypath). }
  destruct (w_fs w !! cpath) as [fc |].
  2: { intros _. by exists (FileNotFoundError cpath), (reading ypath). }
  destruct (f_readable fc).
  2: { intros _. by exists (PermissionError cpath), (reading ypath). }
  destruct doc as [x | xs | d].
  - intros _. by eexists _, (reading ypath ++ reading cpath).
  - intros _. by eexists _, (reading ypath ++ reading cpath).
  - cbv zeta. destruct (f_writable fy); [done |].
    intros _. by eexists _, (reading ypath ++ reading cpath).
Qed.

(** After a successful run the manifest loads again, and, if the
    library reads back what it dumped, as a document equal to the one
    that was written. *)
Lemma reload_after_success prog ypath cpath key w d lines :
  load_file (w_fs w) ypath = Some (PyDict d) →
  lines_of (w_fs w) cpath = Some lines →
  exit_status [prog; ypath; cpath; key] w = 0%Z →
  round_trips (updated d key lines) = true →
  ∃ d', load_file (w_fs (final [prog; ypath; cpath; key] w)) ypath
          = Some (PyDict d') ∧
        eqb (updated d key lines) (PyDict d') = true.
Proof.
  intros Hd Hl (fy & d0 & lines0 & Hy & Hw & Hd0 & Hl0)%run_success_inv Hrt.
  unfold final. rewrite (run_success _ _ _ _ _ fy d lines) by done.
  unfold round_trips in Hrt.
  destruct (yaml_parse _) as [| doc'] eqn:Hp; [done |].
  destruct (PyFacts.eqb_dict_inv _ _ Hrt) as [d' ->].
  exists d'. split; [| done].
  apply load_file_Some. eexists. split; [apply lookup_insert_eq |].
  done.
Qed.

(** A document equal to the updated one holds the lines at the key
    and has as many entries. *)
Lemma equal_to_updated d key lines d' :
  eqb (updated d key lines) (PyDict d') = true →
  dict_get d' (SStr key) = Some (str_list lines) ∧
  length d' = match dict_get d (SStr key) with
              | Some _ => length d
              | None => S (length d)
              end.
Proof.
  unfold updated. intros Heq. split.
  - destruct (PyFacts.eqb_dict_get _ _ (SStr key) (str_list lines) Heq)
      as (v & Hv & Hvl); [apply PyFacts.dict_get_set_eq |].
    apply PyFacts.eqb_str_list in Hvl. by subst v.
  - rewrite <- (PyFacts.eqb_dict_length _ _ Heq).
    apply PyFacts.dict_set_length.
Qed.

Lemma readable_file_lines fs path :
  readable_file fs path = false → lines_of fs path = None.
Proof.
  unfold readable_file, lines_of.
  destruct (fs !! path) as [f |]; [| done]. by intros ->.
Qed.

Lemma readable_file_load fs path :
  readable_file fs path = false → load_file fs path = None.
Proof.
  unfold readable_file, load_file.
  destruct (fs !! path) as [f |]; [| done]. by intros ->.
Qed.

Lemma failure_status prog ypath cpath key w e evs :
  run [prog; ypath; cpath; key] w = (1%Z, reported (logged w evs) e) →
  exit_status [prog; ypath; cpath; key] w = 1%Z ∧
  w_fs (final [prog; ypath; cpath; key] w) = w_fs w.
Proof. unfold exit_status, final. by intros ->. Qed.

End WithLibrary.
End RunFacts.

(** ** The behaviour of the tool *)

Module Spec.
Import Os Builtins Py AppendManifests Observe.

(** The scenario of the specification: the manifest [{foo: 1}] and the
    notes "a\n", "b\n" with key [bar] give a manifest holding both [foo]
    and [bar]; with key [foo] the old value is gone. *)
Example scenario_run :
  run (H := MiniYaml.mini_yaml) Examples.argv Examples.scenario =
    (0%Z,
     rewritten (H := MiniYaml.mini_yaml) Examples.scenario
       "manifest.yaml" "notes.txt"
       (PyDict [(SStr "foo", PyScalar (SInt 1));
                (SStr "bar",
                 str_list ["a" +:+ Examples.nl; "b" +:+ Examples.nl])])).
Proof. vm_compute. reflexivity. Qed.

Example scenario_reload :
  load_file (H := MiniYaml.mini_yaml)
    (w_fs (final (H := MiniYaml.mini_yaml) Examples.argv Examples.scenario))
    "manifest.yaml" =
  Some (PyDict [(SStr "foo", PyScalar (SInt 1));
                (SStr "bar",
                 str_list ["a" +:+ Examples.nl; "b" +:+ Examples.nl])]).
Proof. vm_compute. reflexivity. Qed.

Example scenario_replace :
  load_file (H := MiniYaml.mini_yaml)
    (w_fs (final (H := MiniYaml.mini_yaml)
             Examples.argv_foo Examples.scenario))
    "manifest.yaml" =
  Some (PyDict [(SStr "foo",
                 str_list ["a" +:+ Examples.nl; "b" +:+ Examples.nl])]).
Proof. vm_compute. reflexivity. Qed.

(** C1. When the manifest parses to a mapping [d] and the content file
    reads as [lines], a run that ends with status 0 leaves a manifest that
    loads again as a mapping whose value at the key is exactly the list
    of [lines], provided the library reads back what it dumped.  A key
    absent from [d] adds one entry; a key present in [d] adds none: its
    value is replaced. *)
Theorem key_holds_content_lines `{YamlLib}
    (prog ypath cpath key : string) (w : world) (d : dict)
    (lines : list string) :
  load_file (w_fs w) ypath = Some (PyDict d) →
  lines_of (w_fs w) cpath = Some lines →
  exit_status [prog; ypath; cpath; key] w = 0%Z →
  round_trips (updated d key lines) = true →
  ∃ d', load_file (w_fs (final [prog; ypath; cpath; key] w)) ypath
          = Some (PyDict d') ∧
        dict_get d' (SStr key) = Some (str_list lines) ∧
        length d' = match dict_get d (SStr key) with
                    | Some _ => length d
                    | None => S (length d)
                    end.
Proof.
  intros Hd Hl Hok Hrt.
  destruct (RunFacts.reload_after_success _ _ _ _ _ _ _ Hd Hl Hok Hrt)
    as (d' & Hload & Heq).
  exists d'. split; [done |]. by apply RunFacts.equal_to_updated.
Qed.

Lemma key_holds_content_lines_witness :
  ∃ d', load_file (H := MiniYaml.mini_yaml)
          (w_fs (final (H := MiniYaml.mini_yaml)
                   Examples.argv Examples.scenario))
          "manifest.yaml" = Some (PyDict d') ∧
        dict_get d' (SStr "bar") =
          Some (str_list ["a" +:+ Examples.nl; "b" +:+ Examples.nl]) ∧
        length d' = 2.
Proof.
  apply (key_holds_content_lines (H := MiniYaml.mini_yaml)
           "append_manifests.py" "manifest.yaml" "notes.txt" "bar"
           Examples.scenario Examples.foo_1
           ["a" +:+ Examples.nl; "b" +:+ Examples.nl]);
    vm_compute; reflexivity.
Defined.

(** C2. Under the same conditions every key of [d] other than the
    target key is still a key of the reloaded mapping, with a value that
    Python's [==] finds equal to the one it had. *)
Theorem other_keys_kept `{YamlLib}
    (prog ypath cpath key : string) (w : world) (d : dict)
    (lines : list string) (k : scalar) (v : value) :
  load_file (w_fs w) ypath = Some (PyDict d) →
  lines_of (w_fs w) cpath = Some lines →
  exit_status [prog; ypath; cpath; key] w = 0%Z →
  round_trips (updated d key lines) = true →
  dict_get d k = Some v →
  k ≠ SStr key →
  ∃ d' v', load_file (w_fs (final [prog; ypath; cpath; key] w)) ypath
             = Some (PyDict d') ∧
           dict_get d' k = Some v' ∧ eqb v v' = true.
Proof.
  intros Hd Hl Hok Hrt Hk Hne.
  destruct (RunFacts.reload_after_success _ _ _ _ _ _ _ Hd Hl Hok Hrt)
    as (d' & Hload & Heq).
  unfold updated in Heq.
  destruct (PyFacts.eqb_dict_get _ _ k v Heq) as (v' & Hv' & Hvv').
  - rewrite PyFacts.dict_get_set_ne; [done |].
    destruct (scalar_eqb k (SStr key)) eqn:E; [| done].
    by apply PyFacts.scalar_eqb_str in E.
  - by exists d', v'.
Qed.

Lemma other_keys_kept_witness :
  ∃ d' v', load_file (H := MiniYaml.mini_yaml)
             (w_fs (final (H := MiniYaml.mini_yaml)
                      Examples.argv Examples.scenario))
             "manifest.yaml" = Some (PyDict d') ∧
           dict_get d' (SStr "foo") = Some v' ∧
           eqb (PyScalar (SInt 1)) v' = true.
Proof.
  apply (other_keys_kept (H := MiniYaml.mini_yaml)
           "append_manifests.py" "manifest.yaml" "notes.txt" "bar"
           Examples.scenario Examples.foo_1
           ["a" +:+ Examples.nl; "b" +:+ Examples.nl] (SStr "foo"));
    try (vm_compute; reflexivity).
  discriminate.
Defined.

(** C3. Called with any number of arguments other than three, the script
    prints its two usage lines, the second naming the three arguments, on
    standard output and exits with status 1; no file operation is
    logged and the file system is the one it started with. *)
Theorem usage_on_wrong_argument_count `{YamlLib}
    (argv : list string) (w : world) :
  length argv ≠ 4 →
  run argv w =
    (1%Z,
     World (w_fs w)
           ((w_stdout w +:+ usage_what +:+ String Text.LF EmptyString)
              +:+ usage_args +:+ String Text.LF EmptyString)
           (w_stderr w) (w_trace w)).
Proof.
  intros Hlen. unfold run. by rewrite Phases.main_usage.
Qed.

Lemma usage_on_wrong_argument_count_witness :
  run (H := MiniYaml.mini_yaml) Examples.argv_short Examples.scenario =
    (1%Z,
     World (w_fs Examples.scenario)
           ((EmptyString +:+ usage_what +:+ Examples.nl)
              +:+ usage_args +:+ Examples.nl)
           EmptyString []).
Proof.
  apply (usage_on_wrong_argument_count (H := MiniYaml.mini_yaml)
           Examples.argv_short Examples.scenario).
  vm_compute. discriminate.
Defined.

(** C4. When the text of the content file is [N - 1] complete lines
    followed by a last, non-empty line without terminator, a successful
    run stores at the key a list of exactly [N] strings: the complete
    lines, each ending with its newline, then the last line, which has
    none. *)
Theorem last_line_without_newline `{YamlLib}
    (prog ypath cpath key : string) (w : world) (fc : file)
    (bodies : list string) (tail_line : string) :
  w_fs w !! cpath = Some fc →
  decoded fc = Text.concat_lines (map Text.terminated bodies) +:+ tail_line →
  Forall (λ b, Text.no_newline b = true) bodies →
  Text.no_newline tail_line = true →
  tail_line ≠ EmptyString →
  exit_status [prog; ypath; cpath; key] w = 0%Z →
  ∃ fy' d' ls,
    w_fs (final [prog; ypath; cpath; key] w) !! ypath = Some fy' ∧
    f_data fy' = yaml_dump (PyDict d') ∧
    dict_get d' (SStr key) = Some (str_list ls) ∧
    ls = map Text.terminated bodies ++ [tail_line] ∧
    length ls = S (length bodies) ∧
    Forall (λ l, Text.ends_with_newline l = true) (take (length bodies) ls) ∧
    last ls = Some tail_line ∧
    Text.ends_with_newline tail_line = false.
Proof.
  intros Hc Htext Hb Hl Hne Hok.
  destruct (RunFacts.run_success_inv _ _ _ _ _ Hok)
    as (fy & d & lines & Hy & Hw & Hd & Hlines).
  unfold final. rewrite (RunFacts.run_success _ _ _ _ _ fy d lines) by done.
  apply RunFacts.lines_of_Some in Hlines as (fc' & Hc' & _ & Hlines).
  assert (fc' = fc) as -> by congruence.
  rewrite Htext, TextFacts.readlines_lines in Hlines by done. subst lines.
  eexists _, _, _. split; [apply lookup_insert_eq |].
  split; [reflexivity |]. split; [apply PyFacts.dict_get_set_eq |].
  split; [reflexivity |]. split; [| split; [| split]].
  - rewrite length_app, length_map. simpl. lia.
  - rewrite <- (length_map Text.terminated bodies), take_app_length.
    apply Forall_forall. intros l (b & -> & _)%list_elem_of_fmap.
    apply TextFacts.ends_with_newline_terminated.
  - apply last_snoc.
  - by apply TextFacts.no_newline_ends.
Qed.

Lemma last_line_without_newline_witness :
  ∃ fy' d' ls,
    w_fs (final (H := MiniYaml.mini_yaml)
            Examples.argv Examples.scenario_open) !! "manifest.yaml"
      = Some fy' ∧
    f_data fy' = MiniYaml.dump (PyDict d') ∧
    dict_get d' (SStr "bar") = Some (str_list ls) ∧
    ls = ["a" +:+ Examples.nl; "b"] ∧
    length ls = 2 ∧
    Forall (λ l, Text.ends_with_newline l = true) (take 1 ls) ∧
    last ls = Some "b" ∧
    Text.ends_with_newline "b" = false.
Proof.
  apply (last_line_without_newline (H := MiniYaml.mini_yaml)
           "append_manifests.py" "manifest.yaml" "notes.txt" "bar"
           Examples.scenario_open Examples.notes_open ["a"] "b");
    try (vm_compute; reflexivity).
  - repeat constructor.
  - discriminate.
Defined.

(** C5. A second run on the manifest a successful first run left, with
    the content file reading as before, also ends with status 0, and the
    manifest then holds at the key the same list of lines as after the
    first run, in a mapping with as many entries: nothing is appended or
    duplicated.  The library is taken to read back what each run
    dumps. *)
Theorem second_run_same_value `{YamlLib}
    (prog ypath cpath key : string) (w : world) (d : dict)
    (lines : list string) :
  load_file (w_fs w) ypath = Some (PyDict d) →
  lines_of (w_fs w) cpath = Some lines →
  exit_status [prog; ypath; cpath; key] w = 0%Z →
  lines_of (w_fs (final [prog; ypath; cpath; key] w)) cpath = Some lines →
  round_trips (updated d key lines) = true →
  (∀ d1, load_file (w_fs (final [prog; ypath; cpath; key] w)) ypath
           = Some (PyDict d1) →
         round_trips (updated d1 key lines) = true) →
  exit_status [prog; ypath; cpath; key]
    (final [prog; ypath; cpath; key] w) = 0%Z ∧
  ∃ d1 d2,
    load_file (w_fs (final [prog; ypath; cpath; key] w)) ypath
      = Some (PyDict d1) ∧
    load_file (w_fs (final [prog; ypath; cpath; key]
                       (final [prog; ypath; cpath; key] w))) ypath
      = Some (PyDict d2) ∧
    dict_get d1 (SStr key) = Some (str_list lines) ∧
    dict_get d2 (SStr key) = Some (str_list lines) ∧
    length d2 = length d1.
Proof.
  intros Hd Hl Hok Hl1 Hrt Hrt1.
  destruct (RunFacts.reload_after_success _ _ _ _ _ _ _ Hd Hl Hok Hrt)
    as (d1 & Hd1 & Heq1).
  destruct (RunFacts.equal_to_updated _ _ _ _ Heq1) as [Hk1 _].
  assert (Hok1 : exit_status [prog; ypath; cpath; key]
                   (final [prog; ypath; cpath; key] w) = 0%Z).
  { destruct (RunFacts.run_success_inv _ _ _ _ _ Hok)
      as (fy & d0 & lines0 & Hy & Hw & Hd0 & Hl0).
    unfold exit_status at 1.
    rewrite (RunFacts.run_success _ _ _ _ _
               (File (yaml_dump (updated d key lines)) true true) d1 lines);
      [done | | done..].
    unfold final. rewrite (RunFacts.run_success _ _ _ _ _ fy d lines) by done.
    apply lookup_insert_eq. }
  split; [done |].
  destruct (RunFacts.reload_after_success _ _ _ _ _ _ _ Hd1 Hl1 Hok1
              (Hrt1 d1 Hd1)) as (d2 & Hd2 & Heq2).
  destruct (RunFacts.equal_to_updated _ _ _ _ Heq2) as [Hk2 Hlen2].
  exists d1, d2. rewrite Hk1 in Hlen2. done.
Qed.

Lemma second_run_same_value_witness :
  exit_status (H := MiniYaml.mini_yaml) Examples.argv
    (final (H := MiniYaml.mini_yaml) Examples.argv Examples.scenario) = 0%Z ∧
  ∃ d1 d2,
    load_file (H := MiniYaml.mini_yaml)
      (w_fs (final (H := MiniYaml.mini_yaml)
               Examples.argv Examples.scenario)) "manifest.yaml"
      = Some (PyDict d1) ∧
    load_file (H := MiniYaml.mini_yaml)
      (w_fs (final (H := MiniYaml.mini_yaml) Examples.argv
               (final (H := MiniYaml.mini_yaml)
                  Examples.argv Examples.scenario))) "manifest.yaml"
      = Some (PyDict d2) ∧
    dict_get d1 (SStr "bar") =
      Some (str_list ["a" +:+ Examples.nl; "b" +:+ Examples.nl]) ∧
    dict_get d2 (SStr "bar") =
      Some (str_list ["a" +:+ Examples.nl; "b" +:+ Examples.nl]) ∧
    length d2 = length d1.
Proof.
  apply (second_run_same_value (H := MiniYaml.mini_yaml)
           "append_manifests.py" "manifest.yaml" "notes.txt" "bar"
           Examples.scenario Examples.foo_1
           ["a" +:+ Examples.nl; "b" +:+ Examples.nl]);
    [vm_compute; reflexivity .. |].
  intros d1 Hd1. vm_compute in Hd1. injection Hd1 as <-.
  vm_compute. reflexivity.
Defined.

(** C6. When the manifest loads as anything but a mapping (nothing, a
    scalar, a sequence) the run raises, ends with status 1 and leaves
    every file as it was; once the content file has been read, the
    exception is the [TypeError] of the assignment at the key. *)
Theorem non_mapping_document_fails `{YamlLib}
    (prog ypath cpath key : string) (w : world) (doc : value) :
  load_file (w_fs w) ypath = Some doc →
  is_dict doc = false →
  ∃ e, fst (main [prog; ypath; cpath; key] w) = Raised e ∧
       (readable_file (w_fs w) cpath = true →
        e = TypeError (item_assignment_error doc)) ∧
       exit_status [prog; ypath; cpath; key] w = 1%Z ∧
       w_fs (final [prog; ypath; cpath; key] w) = w_fs w.
Proof.
  intros (fy & Hy & Hr & Hp)%RunFacts.load_file_Some Hnd.
  unfold exit_status, final, run, readable_file.
  rewrite Phases.main_cases, Hy, Hr, Hp.
  destruct (w_fs w !! cpath) as [fc |]; [| by eexists].
  destruct (f_readable fc); [| by eexists].
  destruct doc as [x | xs | d]; [by eexists | by eexists | done].
Qed.

Lemma non_mapping_document_fails_witness :
  ∃ e, fst (main (H := MiniYaml.mini_yaml)
              Examples.argv Examples.scenario_sequence) = Raised e ∧
       (readable_file (w_fs Examples.scenario_sequence) "notes.txt" = true →
        e = TypeError "list indices must be integers or slices, not str") ∧
       exit_status (H := MiniYaml.mini_yaml)
         Examples.argv Examples.scenario_sequence = 1%Z ∧
       w_fs (final (H := MiniYaml.mini_yaml)
               Examples.argv Examples.scenario_sequence)
         = w_fs Examples.scenario_sequence.
Proof.
  apply (non_mapping_document_fails (H := MiniYaml.mini_yaml)
           "append_manifests.py" "manifest.yaml" "notes.txt" "bar"
           Examples.scenario_sequence
           (PyList [PyScalar (SInt 1); PyScalar (SInt 2)]));
    vm_compute; reflexivity.
Defined.

(** C7. When the manifest cannot be loaded (it is missing, may not be
    read, or is not YAML), or the content file is missing or may not be
    read, or the manifest is not a mapping, the run raises and ends with
    status 1 having done nothing but read: no file was opened for
    writing and the file system is the one it started with. *)
Theorem read_side_failure_keeps_files `{YamlLib}
    (prog ypath cpath key : string) (w : world) :
  load_file (w_fs w) ypath = None ∨
  readable_file (w_fs w) cpath = false ∨
  (∃ doc, load_file (w_fs w) ypath = Some doc ∧ is_dict doc = false) →
  ∃ e evs,
    main [prog; ypath; cpath; key] w = (Raised e, logged w evs) ∧
    forallb read_only evs = true ∧
    exit_status [prog; ypath; cpath; key] w = 1%Z ∧
    w_fs (final [prog; ypath; cpath; key] w) = w_fs w.
Proof.
  intros Hcause.
  assert (Hne : exit_status [prog; ypath; cpath; key] w ≠ 0%Z).
  { intros (fy & d & lines & _ & _ & Hd & Hl)%RunFacts.run_success_inv.
    destruct Hcause as [Hnone | [Hc | (doc & Hdoc & Hnd)]].
    - congruence.
    - apply RunFacts.readable_file_lines in Hc. congruence.
    - rewrite Hd in Hdoc. by injection Hdoc as <-. }
  destruct (RunFacts.run_failure _ _ _ _ _ Hne) as (e & evs & Hm & Hrun & Hro).
  destruct (RunFacts.failure_status _ _ _ _ _ _ _ Hrun) as [Hst Hfs].
  by exists e, evs.
Qed.

Lemma read_side_failure_keeps_files_witness :
  ∃ e evs,
    main (H := MiniYaml.mini_yaml) Examples.argv Examples.scenario_locked
      = (Raised e, logged Examples.scenario_locked evs) ∧
    forallb read_only evs = true ∧
    exit_status (H := MiniYaml.mini_yaml)
      Examples.argv Examples.scenario_locked = 1%Z ∧
    w_fs (final (H := MiniYaml.mini_yaml)
            Examples.argv Examples.scenario_locked)
      = w_fs Examples.scenario_locked.
Proof.
  apply (read_side_failure_keeps_files (H := MiniYaml.mini_yaml)
           "append_manifests.py" "manifest.yaml" "notes.txt" "bar"
           Examples.scenario_locked).
  right. left. vm_compute. reflexivity.
Defined.

(** C8. When the manifest can be read but is not YAML, the error of the
    loader is raised out of the script: the run ends with status 1, the
    library's report is the last line on standard error, and the
    manifest was only read. *)
Theorem invalid_yaml_is_fatal `{YamlLib}
    (prog ypath cpath key : string) (w : world) (fy : file) (msg : string) :
  w_fs w !! ypath = Some fy →
  f_readable fy = true →
  yaml_parse (decoded fy) = inl msg →
  main [prog; ypath; cpath; key] w
    = (Raised (YAMLError msg), logged w (reading ypath)) ∧
  run [prog; ypath; cpath; key] w
    = (1%Z, reported (logged w (reading ypath)) (YAMLError msg)).
Proof.
  intros Hy Hr Hp. unfold run. by rewrite Phases.main_cases, Hy, Hr, Hp.
Qed.

Lemma invalid_yaml_is_fatal_witness :
  main (H := MiniYaml.mini_yaml) Examples.argv Examples.scenario_broken
    = (Raised (YAMLError
                 "yaml.parser.ParserError: could not parse the document"),
       logged Examples.scenario_broken (reading "manifest.yaml")) ∧
  run (H := MiniYaml.mini_yaml) Examples.argv Examples.scenario_broken
    = (1%Z,
       reported (logged Examples.scenario_broken (reading "manifest.yaml"))
         (YAMLError
            "yaml.parser.ParserError: could not parse the document")).
Proof.
  apply (invalid_yaml_is_fatal (H := MiniYaml.mini_yaml)
           "append_manifests.py" "manifest.yaml" "notes.txt" "bar"
           Examples.scenario_broken (File "{" true true));
    vm_compute; reflexivity.
Defined.

(** C9, as the code has it.  When the manifest or the content file is
    missing or may not be read, the run ends with status 1 and leaves
    every file as it was.  The exception is the error of opening that
    input when it is the manifest that is missing or unreadable, and
    when the manifest loaded and it is the content file. *)
Theorem missing_input_is_fatal `{YamlLib}
    (prog ypath cpath key : string) (w : world) :
  readable_file (w_fs w) ypath = false ∨
  readable_file (w_fs w) cpath = false →
  exit_status [prog; ypath; cpath; key] w = 1%Z ∧
  w_fs (final [prog; ypath; cpath; key] w) = w_fs w ∧
  (readable_file (w_fs w) ypath = false ∨
   is_Some (load_file (w_fs w) ypath) →
   fails_with_input_error [prog; ypath; cpath; key] w).
Proof.
  intros Hcause.
  assert (Hne : exit_status [prog; ypath; cpath; key] w ≠ 0%Z).
  { intros (fy & d & lines & _ & _ & Hd & Hl)%RunFacts.run_success_inv.
    destruct Hcause as [Hy | Hc].
    - apply RunFacts.readable_file_load in Hy. congruence.
    - apply RunFacts.readable_file_lines in Hc. congruence. }
  destruct (RunFacts.run_failure _ _ _ _ _ Hne) as (e & evs & Hm & Hrun & Hro).
  destruct (RunFacts.failure_status _ _ _ _ _ _ _ Hrun) as [Hst Hfs].
  split; [done |]. split; [done |].
  clear e evs Hm Hrun Hro Hst Hfs Hne.
  unfold fails_with_input_error, readable_file, load_file in *.
  rewrite Phases.main_cases.
  destruct (w_fs w !! ypath) as [fy |]; [| by eexists].
  destruct (f_readable fy); [| by eexists].
  destruct (yaml_parse (decoded fy)) as [msg | doc].
  { intros [? | [? ?]]; done. }
  intros _. destruct Hcause as [? | Hc]; [done |].
  destruct (w_fs w !! cpath) as [fc |]; [| by eexists].
  rewrite Hc. by eexists.
Qed.

Lemma missing_input_is_fatal_witness :
  exit_status (H := MiniYaml.mini_yaml)
    Examples.argv Examples.scenario_empty = 1%Z ∧
  w_fs (final (H := MiniYaml.mini_yaml)
          Examples.argv Examples.scenario_empty)
    = w_fs Examples.scenario_empty ∧
  (readable_file (w_fs Examples.scenario_empty) "manifest.yaml" = false ∨
   is_Some (load_file (H := MiniYaml.mini_yaml)
              (w_fs Examples.scenario_empty) "manifest.yaml") →
   fails_with_input_error (H := MiniYaml.mini_yaml)
     Examples.argv Examples.scenario_empty).
Proof.
  apply (missing_input_is_fatal (H := MiniYaml.mini_yaml)
           "append_manifests.py" "manifest.yaml" "notes.txt" "bar"
           Examples.scenario_empty).
  left. vm_compute. reflexivity.
Defined.

(** C9 as stated fails: with a manifest that is not YAML and no content
    file, the content file is missing, yet the run ends in the parse
    error of the loader, which is raised before the content file is
    opened. *)
Lemma parse_error_precedes_missing_content :
  readable_file (w_fs Examples.scenario_broken) "notes.txt" = false ∧
  fst (main (H := MiniYaml.mini_yaml) Examples.argv Examples.scenario_broken)
    = Raised (YAMLError
                "yaml.parser.ParserError: could not parse the document") ∧
  ¬ fails_with_input_error (H := MiniYaml.mini_yaml)
      Examples.argv Examples.scenario_broken.
Proof.
  split; [by vm_compute |]. split; [by vm_compute |].
  intros (e & He & Hin). vm_compute in He. injection He as <-.
  discriminate Hin.
Qed.

End Spec.

(** ** More on lines *)

Module LineFacts.
Import Text Checks.

Lemma readlines_nil s : readlines s = [] → s = EmptyString.
Proof.
  destruct s as [| c s]; [done |]. simpl.
  destruct (is_lf c); [done |]. by destruct (readlines s).
Qed.

Lemma ends_with_newline_cons c s :
  s ≠ EmptyString → ends_with_newline (String c s) = ends_with_newline s.
Proof. by destruct s. Qed.

Lemma open_end_cons c s : s ≠ EmptyString → open_end (String c s) = open_end s.
Proof. intros Hs. destruct s as [| c' s']; [done |]. reflexivity. Qed.

(** As many lines as terminators, and one more for an open last line. *)
Lemma length_readlines s : length (readlines s) = count_lf s + open_end s.
Proof.
  induction s as [| c s IH]; [done |].
  destruct (decide (s = EmptyString)) as [-> | Hs].
  { simpl. unfold open_end. simpl. by destruct (is_lf c). }
  rewrite open_end_cons by done. simpl.
  destruct (is_lf c).
  - simpl. rewrite IH. lia.
  - destruct (readlines s) as [| l ls] eqn:E.
    + by apply readlines_nil in E.
    + simpl in *. rewrite IH. lia.
Qed.

(** Every line is not empty and has no terminator before its end. *)
Lemma readlines_single_line s :
  Forall (λ l, single_line l = true) (readlines s).
Proof.
  induction s as [| c s IH]; simpl; [constructor |].
  destruct (is_lf c) eqn:Hc; [by constructor |].
  destruct (readlines s) as [| l ls]; [by repeat constructor |].
  inversion IH as [| ? ? Hl Hls]; subst. constructor; [| done].
  destruct l as [| c' l']; [done |]. simpl. by rewrite Hc.
Qed.

(** Every line but the last ends with its terminator. *)
Lemma readlines_terminated_but_last s i l :
  readlines s !! i = Some l → S i < length (readlines s) →
  ends_with_newline l = true.
Proof.
  revert i l. induction s as [| c s IH]; intros i l; simpl; [done |].
  destruct (is_lf c) eqn:Hc.
  - destruct i as [| i]; simpl.
    + intros [= <-] _. simpl. done.
    + intros Hl Hi. apply (IH i); [done | lia].
  - destruct (readlines s) as [| l0 ls] eqn:E; simpl.
    + intros _ Hi. lia.
    + destruct i as [| i]; simpl.
      * intros [= <-] Hi.
        assert (Hl0 : ends_with_newline l0 = true).
        { apply (IH 0); [done | simpl; lia]. }
        destruct l0 as [| c0 l0']; [done |].
        by rewrite ends_with_newline_cons.
      * intros Hl Hi. apply (IH (S i)); [done | simpl; lia].
Qed.

(** Universal newlines leave no carriage return. *)
Lemma universal_newlines_no_cr s :
  has_cr (universal_newlines s) = false ∧
  ∀ c, has_cr (universal_newlines (String c s)) = false.
Proof.
  induction s as [| a s [IH1 IH2]].
  - split; [done |]. intros c. simpl. by destruct (is_cr c) eqn:Hc; simpl; rewrite ?Hc.
  - split; [apply IH2 |]. intros c.
    change (universal_newlines (String c (String a s))) with
      (if is_cr c then
         if is_lf a then String LF (universal_newlines s)
         else String LF (universal_newlines (String a s))
       else String c (universal_newlines (String a s))).
    destruct (is_cr c) eqn:Hc.
    + destruct (is_lf a).
      * change (has_cr (universal_newlines s) = false). done.
      * change (has_cr (universal_newlines (String a s)) = false). apply IH2.
    + change (is_cr c || has_cr (universal_newlines (String a s)) = false).
      by rewrite Hc, IH2.
Qed.

(** The lines of a text without carriage return have none. *)
Lemma readlines_no_cr s :
  has_cr s = false → Forall (λ l, has_cr l = false) (readlines s).
Proof.
  induction s as [| c s IH]; simpl; [constructor |].
  intros [Hc Hs]%orb_false_iff. specialize (IH Hs).
  destruct (is_lf c).
  - constructor; [| done]. simpl. by rewrite Hc.
  - destruct (readlines s) as [| l ls].
    + repeat constructor. simpl. by rewrite Hc.
    + inversion IH; subst. constructor; [| done]. simpl. by rewrite Hc.
Qed.

End LineFacts.

(** ** More on dictionaries *)

Module DictFacts.
Import Py.

(** A second assignment at a key undoes the first. *)
Lemma dict_set_twice d k v v' :
  dict_set (dict_set d k v) k v' = dict_set d k v'.
Proof.
  induction d as [| [k0 v0] d IH]; simpl.
  - by rewrite PyFacts.scalar_eqb_refl.
  - destruct (scalar_eqb k0 k) eqn:E; simpl; rewrite E; [done |].
    by rewrite IH.
Qed.

End DictFacts.

(** ** Every way a run can end *)

Module RunCases.
Import Os Builtins Py AppendManifests Observe Checks.

Section WithLibrary.
Context `{YamlLib}.

Lemma four_arguments (argv : list string) :
  length argv = 4 → ∃ prog y c k, argv = [prog; y; c; k].
Proof.
  destruct argv as [| a [| b [| c [| d [| e l]]]]]; try done. eauto.
Qed.

(** A successful run leaves the rewritten world. *)
Lemma success_world prog y c k w :
  exit_status [prog; y; c; k] w = 0%Z →
  ∃ fy fc d,
    w_fs w !! y = Some fy ∧ f_readable fy = true ∧ f_writable fy = true ∧
    yaml_parse (decoded fy) = inr (PyDict d) ∧
    w_fs w !! c = Some fc ∧ f_readable fc = true ∧
    run [prog; y; c; k] w =
      (0%Z, rewritten w y c (updated d k (Text.readlines (decoded fc)))).
Proof.
  intros Hok.
  destruct (RunFacts.run_success_inv _ _ _ _ _ Hok)
    as (fy & d & lines & Hy & Hw & Hd & Hl).
  pose proof (RunFacts.run_success prog y c k w fy d lines Hy Hw Hd Hl) as Hrun.
  apply RunFacts.load_file_Some in Hd as (fy' & Hy' & Hr & Hp).
  assert (fy' = fy) as -> by congruence.
  apply RunFacts.lines_of_Some in Hl as (fc & Hc & Hrc & <-).
  by exists fy, fc, d.
Qed.

(** A failing run has read the manifest, or the manifest and the content
    file, or nothing. *)
Lemma failure_world prog y c k w :
  exit_status [prog; y; c; k] w ≠ 0%Z →
  ∃ e evs,
    run [prog; y; c; k] w = (1%Z, reported (logged w evs) e) ∧
    (evs = [] ∨ evs = reading y ∨ evs = reading y ++ reading c).
Proof.
  unfold exit_status, run. rewrite Phases.main_cases.
  assert (Hw : logged w [] = w).
  { unfold logged. rewrite app_nil_r. by destruct w. }
  destruct (w_fs w !! y) as [fy |].
  2: { intros _. exists (FileNotFoundError y), []. rewrite Hw. eauto. }
  destruct (f_readable fy).
  2: { intros _. exists (PermissionError y), []. rewrite Hw. eauto. }
  destruct (yaml_parse (decoded fy)) as [msg | doc].
  { intros _. exists (YAMLError msg), (reading y). eauto. }
  destruct (w_fs w !! c) as [fc |].
  2: { intros _. exists (FileNotFoundError c), (reading y). eauto. }
  destruct (f_readable fc).
  2: { intros _. exists (PermissionError c), (reading y). eauto. }
  destruct doc as [x | xs | d].
  - intros _. eexists _, (reading y ++ reading c). eauto.
  - intros _. eexists _, (reading y ++ reading c). eauto.
  - cbv zeta. destruct (f_writable fy); [done |].
    intros _. eexists _, (reading y ++ reading c). eauto.
Qed.

(** After a successful run the manifest holds the lines of the content
    file at the key. *)
Lemma success_holds_lines prog y c k w fc :
  exit_status [prog; y; c; k] w = 0%Z →
  w_fs w !! c = Some fc →
  holds_lines (w_fs (final [prog; y; c; k] w)) y k
    (Text.readlines (decoded fc)).
Proof.
  intros (fy & fc' & d & Hy & Hr & Hw & Hp & Hc & Hrc & Hrun)%success_world Hfc.
  assert (fc' = fc) as -> by congruence.
  unfold final. rewrite Hrun. eexists. split; [apply lookup_insert_eq |].
  apply PyFacts.dict_get_set_eq.
Qed.

End WithLibrary.
End RunCases.

(** ** Further behaviour of the tool *)

Module Behaviour.
Import Os Builtins Py AppendManifests Observe Checks.


(** X2. Whatever the arguments and the files, the exit status is 0 or
    1. *)
Theorem exit_status_0_or_1 `{YamlLib} (argv : list string) (w : world) :
  exit_status argv w = 0%Z ∨ exit_status argv w = 1%Z.
Proof.
  destruct (decide (length argv = 4)) as [Hlen | Hlen].
  - destruct (RunCases.four_arguments argv Hlen) as (prog & y & c & k & ->).
    destruct (decide (exit_status [prog; y; c; k] w = 0%Z)) as [| Hne];
      [by left | right].
    destruct (RunCases.failure_world _ _ _ _ _ Hne) as (e & evs & Hrun & _).
    unfold exit_status. by rewrite Hrun.
  - right. unfold exit_status, run. by rewrite (Phases.main_usage argv w Hlen).
Qed.

(** X3. When the manifest loads as a mapping and the content file can be
    read but the manifest may not be written, opening it for writing
    raises [PermissionError]: the run ends with status 1 after both files
    were read, and the manifest is not emptied. *)
Theorem write_protected_manifest_is_kept `{YamlLib}
    (prog y c k : string) (w : world) (fy : file) (d : dict)
    (lines : list string) :
  w_fs w !! y = Some fy →
  f_writable fy = false →
  load_file (w_fs w) y = Some (PyDict d) →
  lines_of (w_fs w) c = Some lines →
  main [prog; y; c; k] w =
    (Raised (PermissionError y), logged w (reading y ++ reading c)) ∧
  exit_status [prog; y; c; k] w = 1%Z ∧
  w_fs (final [prog; y; c; k] w) = w_fs w.
Proof.
  intros Hy Hw (fy' & Hy' & Hr & Hp)%RunFacts.load_file_Some
    (fc & Hc & Hrc & Hl)%RunFacts.lines_of_Some.
  assert (fy' = fy) as -> by congruence.
  unfold exit_status, final, run.
  by rewrite Phases.main_cases, Hy, Hr, Hp, Hc, Hrc, Hw.
Qed.

Lemma write_protected_manifest_is_kept_witness :
  main (H := MiniYaml.mini_yaml) Examples.argv MoreExamples.scenario_readonly =
    (Raised (PermissionError "manifest.yaml"),
     logged MoreExamples.scenario_readonly
       (reading "manifest.yaml" ++ reading "notes.txt")) ∧
  exit_status (H := MiniYaml.mini_yaml)
    Examples.argv MoreExamples.scenario_readonly = 1%Z ∧
  w_fs (final (H := MiniYaml.mini_yaml)
          Examples.argv MoreExamples.scenario_readonly)
    = w_fs MoreExamples.scenario_readonly.
Proof.
  apply (write_protected_manifest_is_kept (H := MiniYaml.mini_yaml)
           "append_manifests.py" "manifest.yaml" "notes.txt" "bar"
           MoreExamples.scenario_readonly
           (File ("{foo: 1}" +:+ Examples.nl) true false) Examples.foo_1
           ["a" +:+ Examples.nl; "b" +:+ Examples.nl]);
    vm_compute; reflexivity.
Defined.

(** X4. No run changes a file other than the one its first argument
    names. *)
Theorem only_the_manifest_changes `{YamlLib}
    (argv : list string) (w : world) (p : string) :
  argv !! 1 ≠ Some p →
  w_fs (final argv w) !! p = w_fs w !! p.
Proof.
  intros Hp. destruct (decide (length argv = 4)) as [Hlen | Hlen].
  - destruct (RunCases.four_arguments argv Hlen) as (prog & y & c & k & ->).
    assert (y ≠ p) by (intros ->; by apply Hp).
    destruct (decide (exit_status [prog; y; c; k] w = 0%Z)) as [Hok | Hne].
    + destruct (RunCases.success_world _ _ _ _ _ Hok)
        as (fy & fc & d & _ & _ & _ & _ & _ & _ & Hrun).
      unfold final. rewrite Hrun. simpl. by apply lookup_insert_ne.
    + destruct (RunCases.failure_world _ _ _ _ _ Hne) as (e & evs & Hrun & _).
      unfold final. by rewrite Hrun.
  - unfold final, run. by rewrite (Phases.main_usage argv w Hlen).
Qed.

Lemma only_the_manifest_changes_witness :
  w_fs (final (H := MiniYaml.mini_yaml) Examples.argv Examples.scenario)
    !! "notes.txt"
  = w_fs Examples.scenario !! "notes.txt".
Proof.
  apply (only_the_manifest_changes (H := MiniYaml.mini_yaml)
           Examples.argv Examples.scenario "notes.txt").
  vm_compute. discriminate.
Defined.

(** X5. No run creates or removes a file or changes what a file
    allows: at every path the permissions after the run are those
    before it. *)
Theorem permissions_are_kept `{YamlLib}
    (argv : list string) (w : world) (p : string) :
  permissions <$> (w_fs (final argv w) !! p) = permissions <$> (w_fs w !! p).
Proof.
  destruct (decide (length argv = 4)) as [Hlen | Hlen].
  - destruct (RunCases.four_arguments argv Hlen) as (prog & y & c & k & ->).
    destruct (decide (exit_status [prog; y; c; k] w = 0%Z)) as [Hok | Hne].
    + destruct (RunCases.success_world _ _ _ _ _ Hok)
        as (fy & fc & d & Hy & Hr & Hw & _ & _ & _ & Hrun).
      unfold final. rewrite Hrun. simpl.
      destruct (decide (y = p)) as [<- | Hyp].
      * rewrite lookup_insert_eq, Hy. simpl. unfold permissions. simpl.
        by rewrite Hr, Hw.
      * by rewrite lookup_insert_ne.
    + destruct (RunCases.failure_world _ _ _ _ _ Hne) as (e & evs & Hrun & _).
      unfold final. by rewrite Hrun.
  - unfold final, run. by rewrite (Phases.main_usage argv w Hlen).
Qed.

(** X6. In every run the file operations are well bracketed: at most one
    file is open at a time, it is read or written only while open in the
    matching mode, and every file opened is closed again, also when the
    run fails. *)
Theorem files_are_closed `{YamlLib} (argv : list string) (w : world) :
  ∃ evs, w_trace (final argv w) = w_trace w ++ evs ∧
         bracketed None evs = true.
Proof.
  destruct (decide (length argv = 4)) as [Hlen | Hlen].
  - destruct (RunCases.four_arguments argv Hlen) as (prog & y & c & k & ->).
    destruct (decide (exit_status [prog; y; c; k] w = 0%Z)) as [Hok | Hne].
    + destruct (RunCases.success_world _ _ _ _ _ Hok)
        as (fy & fc & d & _ & _ & _ & _ & _ & _ & Hrun).
      unfold final. rewrite Hrun. eexists. split; [reflexivity |].
      simpl. by rewrite !String.eqb_refl.
    + destruct (RunCases.failure_world _ _ _ _ _ Hne)
        as (e & evs & Hrun & Hevs).
      unfold final. rewrite Hrun. exists evs. split; [done |].
      destruct Hevs as [-> | [-> | ->]]; simpl; by rewrite ?String.eqb_refl.
  - exists []. unfold final, run. rewrite (Phases.main_usage argv w Hlen).
    simpl. by rewrite app_nil_r.
Qed.

(** X7. A successful run prints nothing and does exactly this, in this
    order: it reads the manifest, reads the content file, and then opens
    the manifest for writing and writes its new contents in one piece.
    The content file is read before the manifest is emptied. *)
Theorem successful_run_in_order `{YamlLib}
    (prog y c k : string) (w : world) :
  exit_status [prog; y; c; k] w = 0%Z →
  ∃ data,
    final [prog; y; c; k] w =
      World (<[y := File data true true]> (w_fs w))
            (w_stdout w) (w_stderr w)
            (w_trace w ++ reading y ++ reading c ++ writing y data).
Proof.
  intros (fy & fc & d & _ & _ & _ & _ & _ & _ & Hrun)%RunCases.success_world.
  unfold final. rewrite Hrun. by eexists.
Qed.

Lemma successful_run_in_order_witness :
  ∃ data,
    final (H := MiniYaml.mini_yaml) Examples.argv Examples.scenario =
      World (<["manifest.yaml" := File data true true]>
               (w_fs Examples.scenario))
            (w_stdout Examples.scenario) (w_stderr Examples.scenario)
            (w_trace Examples.scenario ++ reading "manifest.yaml" ++
             reading "notes.txt" ++ writing "manifest.yaml" data).
Proof.
  apply (successful_run_in_order (H := MiniYaml.mini_yaml)
           "append_manifests.py" "manifest.yaml" "notes.txt" "bar"
           Examples.scenario).
  vm_compute. reflexivity.
Defined.

(** X8. With three arguments nothing is ever printed on standard output,
    and standard error receives exactly one report when the run fails and
    nothing when it succeeds. *)
Theorem output_with_three_arguments `{YamlLib}
    (prog y c k : string) (w : world) :
  w_stdout (final [prog; y; c; k] w) = w_stdout w ∧
  (exit_status [prog; y; c; k] w = 0%Z →
   w_stderr (final [prog; y; c; k] w) = w_stderr w) ∧
  (exit_status [prog; y; c; k] w ≠ 0%Z →
   ∃ e, fst (main [prog; y; c; k] w) = Raised e ∧
        w_stderr (final [prog; y; c; k] w) = w_stderr w +:+ traceback e).
Proof.
  destruct (decide (exit_status [prog; y; c; k] w = 0%Z)) as [Hok | Hne].
  - destruct (RunCases.success_world _ _ _ _ _ Hok)
      as (fy & fc & d & _ & _ & _ & _ & _ & _ & Hrun).
    unfold final. rewrite Hrun. by repeat split.
  - destruct (RunFacts.run_failure _ _ _ _ _ Hne) as (e & evs & Hm & Hrun & _).
    unfold final. rewrite Hrun. repeat split; [done |].
    intros _. exists e. by rewrite Hm.
Qed.

(** X9. After a successful run the strings stored at the key, put end to
    end, are the text of the content file as it was read: no character is
    lost, added or moved. *)
Theorem stored_lines_are_the_text `{YamlLib}
    (prog y c k : string) (w : world) (fc : file) :
  exit_status [prog; y; c; k] w = 0%Z →
  w_fs w !! c = Some fc →
  ∃ ls, holds_lines (w_fs (final [prog; y; c; k] w)) y k ls ∧
        Text.concat_lines ls = decoded fc.
Proof.
  intros Hok Hc. exists (Text.readlines (decoded fc)).
  split; [by apply RunCases.success_holds_lines |].
  apply TextFacts.concat_readlines.
Qed.

Lemma stored_lines_are_the_text_witness :
  ∃ ls, holds_lines (H := MiniYaml.mini_yaml)
          (w_fs (final (H := MiniYaml.mini_yaml)
                   Examples.argv Examples.scenario))
          "manifest.yaml" "bar" ls ∧
        Text.concat_lines ls = decoded Examples.notes.
Proof.
  apply (stored_lines_are_the_text (H := MiniYaml.mini_yaml)
           "append_manifests.py" "manifest.yaml" "notes.txt" "bar"
           Examples.scenario Examples.notes);
    vm_compute; reflexivity.
Defined.

(** X10. The number of strings stored at the key is the number of line
    terminators in the text of the content file, plus one when the text
    does not end with a terminator and is not empty.  A final newline
    gives no empty last entry. *)
Theorem stored_lines_count `{YamlLib}
    (prog y c k : string) (w : world) (fc : file) :
  exit_status [prog; y; c; k] w = 0%Z →
  w_fs w !! c = Some fc →
  ∃ ls, holds_lines (w_fs (final [prog; y; c; k] w)) y k ls ∧
        length ls = count_lf (decoded fc) + open_end (decoded fc).
Proof.
  intros Hok Hc. exists (Text.readlines (decoded fc)).
  split; [by apply RunCases.success_holds_lines |].
  apply LineFacts.length_readlines.
Qed.

Lemma stored_lines_count_witness :
  ∃ ls, holds_lines (H := MiniYaml.mini_yaml)
          (w_fs (final (H := MiniYaml.mini_yaml)
                   Examples.argv Examples.scenario_open))
          "manifest.yaml" "bar" ls ∧
        length ls = 1 + 1.
Proof.
  apply (stored_lines_count (H := MiniYaml.mini_yaml)
           "append_manifests.py" "manifest.yaml" "notes.txt" "bar"
           Examples.scenario_open Examples.notes_open);
    vm_compute; reflexivity.
Defined.

(** X11. Every string stored at the key is one line: it is not empty and
    has no line terminator before its last character; and every one but
    the last ends with a terminator. *)
Theorem stored_lines_shape `{YamlLib}
    (prog y c k : string) (w : world) (fc : file) :
  exit_status [prog; y; c; k] w = 0%Z →
  w_fs w !! c = Some fc →
  ∃ ls, holds_lines (w_fs (final [prog; y; c; k] w)) y k ls ∧
        Forall (λ l, single_line l = true) ls ∧
        ∀ i l, ls !! i = Some l → S i < length ls →
               Text.ends_with_newline l = true.
Proof.
  intros Hok Hc. exists (Text.readlines (decoded fc)).
  split; [by apply RunCases.success_holds_lines |].
  split; [apply LineFacts.readlines_single_line |].
  apply LineFacts.readlines_terminated_but_last.
Qed.

Lemma stored_lines_shape_witness :
  ∃ ls, holds_lines (H := MiniYaml.mini_yaml)
          (w_fs (final (H := MiniYaml.mini_yaml)
                   Examples.argv Examples.scenario_open))
          "manifest.yaml" "bar" ls ∧
        Forall (λ l, single_line l = true) ls ∧
        ∀ i l, ls !! i = Some l → S i < length ls →
               Text.ends_with_newline l = true.
Proof.
  apply (stored_lines_shape (H := MiniYaml.mini_yaml)
           "append_manifests.py" "manifest.yaml" "notes.txt" "bar"
           Examples.scenario_open Examples.notes_open);
    vm_compute; reflexivity.
Defined.

(** X12. An empty content file gives the empty list at the key: the key
    is set all the same, to a sequence without entries. *)
Theorem empty_content_gives_empty_list `{YamlLib}
    (prog y c k : string) (w : world) (fc : file) :
  exit_status [prog; y; c; k] w = 0%Z →
  w_fs w !! c = Some fc →
  f_data fc = EmptyString →
  holds_lines (w_fs (final [prog; y; c; k] w)) y k [].
Proof.
  intros Hok Hc Hdata.
  pose proof (RunCases.success_holds_lines _ _ _ _ _ _ Hok Hc) as Hl.
  unfold decoded in Hl. by rewrite Hdata in Hl.
Qed.

Lemma empty_content_gives_empty_list_witness :
  holds_lines (H := MiniYaml.mini_yaml)
    (w_fs (final (H := MiniYaml.mini_yaml)
             Examples.argv MoreExamples.scenario_blank))
    "manifest.yaml" "bar" [].
Proof.
  apply (empty_content_gives_empty_list (H := MiniYaml.mini_yaml)
           "append_manifests.py" "manifest.yaml" "notes.txt" "bar"
           MoreExamples.scenario_blank (File EmptyString true true));
    vm_compute; reflexivity.
Defined.

(** X13. No string stored at the key holds a carriage return: the line
    ends "\r\n" and "\r" of the content file are stored as "\n". *)
Theorem stored_lines_have_no_cr `{YamlLib}
    (prog y c k : string) (w : world) (fc : file) :
  exit_status [prog; y; c; k] w = 0%Z →
  w_fs w !! c = Some fc →
  ∃ ls, holds_lines (w_fs (final [prog; y; c; k] w)) y k ls ∧
        Forall (λ l, has_cr l = false) ls.
Proof.
  intros Hok Hc. exists (Text.readlines (decoded fc)).
  split; [by apply RunCases.success_holds_lines |].
  apply LineFacts.readlines_no_cr, LineFacts.universal_newlines_no_cr.
Qed.

Lemma stored_lines_have_no_cr_witness :
  ∃ ls, holds_lines (H := MiniYaml.mini_yaml)
          (w_fs (final (H := MiniYaml.mini_yaml)
                   Examples.argv MoreExamples.scenario_crlf))
          "manifest.yaml" "bar" ls ∧
        Forall (λ l, has_cr l = false) ls.
Proof.
  apply (stored_lines_have_no_cr (H := MiniYaml.mini_yaml)
           "append_manifests.py" "manifest.yaml" "notes.txt" "bar"
           MoreExamples.scenario_crlf MoreExamples.notes_crlf);
    vm_compute; reflexivity.
Defined.

(** X14. When the library loads the manifest a run wrote as the very
    document that was dumped, and the content file is another file than
    the manifest, a second run with the same arguments succeeds and leaves
    every file as the first run left it. *)
Theorem second_run_changes_nothing `{YamlLib}
    (prog y c k : string) (w : world) (d : dict) (lines : list string) :
  load_file (w_fs w) y = Some (PyDict d) →
  lines_of (w_fs w) c = Some lines →
  exit_status [prog; y; c; k] w = 0%Z →
  c ≠ y →
  yaml_parse (Text.universal_newlines (yaml_dump (updated d k lines)))
    = inr (updated d k lines) →
  exit_status [prog; y; c; k] (final [prog; y; c; k] w) = 0%Z ∧
  w_fs (final [prog; y; c; k] (final [prog; y; c; k] w))
    = w_fs (final [prog; y; c; k] w).
Proof.
  intros Hd Hl Hok Hcy Hexact.
  destruct (RunFacts.run_success_inv _ _ _ _ _ Hok)
    as (fy & d0 & lines0 & Hy & Hw & _ & _).
  pose proof (RunFacts.run_success prog y c k w fy d lines Hy Hw Hd Hl) as Hrun.
  assert (Hrun1 :
    run [prog; y; c; k] (final [prog; y; c; k] w) =
      (0%Z, rewritten (final [prog; y; c; k] w) y c
              (updated (dict_set d (SStr k) (str_list lines)) k lines))).
  { apply (RunFacts.run_success _ _ _ _ _
             (File (yaml_dump (updated d k lines)) true true)).
    - unfold final. rewrite Hrun. apply lookup_insert_eq.
    - done.
    - apply RunFacts.load_file_Some. eexists.
      split; [unfold final; rewrite Hrun; apply lookup_insert_eq |].
      split; [done |]. exact Hexact.
    - unfold final. rewrite Hrun. unfold lines_of. simpl.
      rewrite lookup_insert_ne by done. exact Hl. }
  split.
  - unfold exit_status. by rewrite Hrun1.
  - change (w_fs (snd (run [prog; y; c; k] (final [prog; y; c; k] w)))
            = w_fs (final [prog; y; c; k] w)).
    rewrite Hrun1. unfold final. rewrite Hrun. unfold updated. simpl.
    by rewrite DictFacts.dict_set_twice, insert_insert_eq.
Qed.

Lemma second_run_changes_nothing_witness :
  exit_status (H := MiniYaml.mini_yaml) Examples.argv
    (final (H := MiniYaml.mini_yaml) Examples.argv Examples.scenario) = 0%Z ∧
  w_fs (final (H := MiniYaml.mini_yaml) Examples.argv
          (final (H := MiniYaml.mini_yaml) Examples.argv Examples.scenario))
    = w_fs (final (H := MiniYaml.mini_yaml) Examples.argv Examples.scenario).
Proof.
  apply (second_run_changes_nothing (H := MiniYaml.mini_yaml)
           "append_manifests.py" "manifest.yaml" "notes.txt" "bar"
           Examples.scenario Examples.foo_1
           ["a" +:+ Examples.nl; "b" +:+ Examples.nl]);
    try (vm_compute; reflexivity).
  discriminate.
Defined.

End Behaviour.

(** ** The build script *)

Module SetupFacts.
Import SetupPy.



(** X15. Without the moby sources in the working directory the script
    prints its two lines and exits with status 1, on every platform and
    interpreter: [setup] is not called. *)
Theorem missing_checkout_stops_the_build (py : interpreter) :
  moby_frontend ∉ existing py →
  script py =
    (line "moby checkout is missing!" +:+
     line "Run `git submodule update --init`",
     Exited 1).
Proof.
  intros Hmiss. unfold script. by rewrite bool_decide_eq_false_2.
Qed.

Lemma missing_checkout_stops_the_build_witness :
  script bare_checkout =
    (line "moby checkout is missing!" +:+
     line "Run `git submodule update --init`",
     Exited 1).
Proof.
  apply (missing_checkout_stops_the_build bare_checkout).
  vm_compute. set_solver.
Defined.

(** X16. With the moby sources present the script prints nothing and
    calls [setup] with the one extension [dockerfile], built from
    [pylib/main.go] against the limited API, whatever the platform.  The
    [bdist_wheel] command is replaced exactly when the platform is not
    [win32], the implementation is CPython and the wheel package can be
    imported; in every other case no command is replaced. *)
Theorem setup_call (py : interpreter) :
  moby_frontend ∈ existing py →
  ∃ args,
    script py = (EmptyString, SetupCalled args) ∧
    ext_modules args =
      [Extension "dockerfile" ["pylib/main.go"] true
         [("Py_LIMITED_API", None)]] ∧
    build_golang args = [("root", "github.com/asottile/dockerfile")] ∧
    (map fst (cmdclass args) = ["bdist_wheel"] ↔
     sys_platform py ≠ "win32" ∧ python_implementation py = "CPython" ∧
     wheel_installed py = true) ∧
    (cmdclass args = [] ↔
     ¬ (sys_platform py ≠ "win32" ∧ python_implementation py = "CPython" ∧
        wheel_installed py = true)).
Proof.
  intros Hin. unfold script. rewrite bool_decide_eq_true_2 by done.
  eexists. split; [reflexivity |]. split; [done |]. split; [done |].
  simpl. unfold choose_cmdclass.
  destruct (String.eqb_spec (sys_platform py) "win32") as [Hp | Hp];
    destruct (String.eqb_spec (python_implementation py) "CPython")
      as [Hi | Hi];
    destruct (wheel_installed py) eqn:Hw; simpl;
    (split; split;
     [first [done | intros _; tauto | tauto]
     | first [done | intros (? & ? & ?); congruence]
     | first [done | intros _ (? & ? & ?); congruence | tauto]
     | first [done | tauto | intros Hn; exfalso; apply Hn; done]]).
Qed.

Lemma setup_call_witness :
  ∃ args,
    script cpython_linux = (EmptyString, SetupCalled args) ∧
    ext_modules args =
      [Extension "dockerfile" ["pylib/main.go"] true
         [("Py_LIMITED_API", None)]] ∧
    build_golang args = [("root", "github.com/asottile/dockerfile")] ∧
    (map fst (cmdclass args) = ["bdist_wheel"] ↔
     sys_platform cpython_linux ≠ "win32" ∧
     python_implementation cpython_linux = "CPython" ∧
     wheel_installed cpython_linux = true) ∧
    (cmdclass args = [] ↔
     ¬ (sys_platform cpython_linux ≠ "win32" ∧
        python_implementation cpython_linux = "CPython" ∧
        wheel_installed cpython_linux = true)).
Proof.
  apply (setup_call cpython_linux). vm_compute. set_solver.
Defined.



End SetupFacts.
